(** * Korch: a Keras-like interface to PyTorch

    Shallow embedding of the [History] accumulator and of the [Module]
    training loop ([train_step], [validation_step], [fit], [compile],
    [evaluate]) of the [korch] notebooks, with the properties of the
    metric bookkeeping proved over it.

    Python values are modelled as follows.
    - A [dict] is an association list in insertion order (Python dicts
      iterate in insertion order, and the loops of the source iterate over
      [.items()]); lookup and assignment act on the first binding of a key.
    - Metric samples are Python numbers: an abstract type with the three
      operations the source applies to them ([PyNum]); binary64 floats are
      the instance used for the concrete runs.
    - Exceptions are values of [exn]; a computation gives a [result].
    - Everything PyTorch owns (parameters, gradients, optimizer and metric
      accumulators, training flag) is an abstract [world] threaded through
      the calls; the tqdm progress bars only display and are left out.
    - A data source is the list of its batches where it is a sized
      sequence on which no call raises; a [DataSource] also says what
      [iter], [len] and [next] raise, and the loops over it are shown to be
      those over the list when nothing of it raises.
    - The aggregation function of [aggregate] is a function of the values
      of the series; [aggregate_in_place] is the same code for a function
      that can also modify the list it is handed. *)

From Stdlib Require Import List String ZArith Lia Bool Arith PrimFloat Uint63.
Import ListNotations.

Set Implicit Arguments.

(** ** Exceptions and results *)

Inductive exn : Type :=
| ZeroDivisionError
| KeyError (key : string)
| UnboundLocalError (name : string)
| AttributeError (attr : string)
| TypeError (msg : string)
| RuntimeError (msg : string).

Inductive result (A : Type) : Type :=
| Ok (a : A)
| Raise (e : exn).

Arguments Ok {A} a.
Arguments Raise {A} e.

(** ** Python dictionaries, in insertion order *)

Definition dict (V : Type) : Type := list (string * V).

Section PyDict.
Context {V : Type}.

(** [d.keys()] *)
Definition keys (d : dict V) : list string := map fst d.

(** [d[k]], [None] standing for the [KeyError] *)
Fixpoint dict_get (k : string) (d : dict V) : option V :=
  match d with
  | [] => None
  | (k', v) :: d' => if String.eqb k k' then Some v else dict_get k d'
  end.

(** [d[k] = v]: overwrite in place, or insert at the end *)
Fixpoint dict_set (k : string) (v : V) (d : dict V) : dict V :=
  match d with
  | [] => [(k, v)]
  | (k', v') :: d' =>
      if String.eqb k k' then (k', v) :: d' else (k', v') :: dict_set k v d'
  end.
End PyDict.

(** [{name: f(value) for name, value in d.items()}], [f] raising or not;
    the items are visited in order and the first exception escapes. *)
Fixpoint dict_comp {A B : Type} (f : A -> result B) (d : dict A)
  : result (dict B) :=
  match d with
  | [] => Ok []
  | (name, value) :: d' =>
      match f value with
      | Raise e => Raise e
      | Ok b =>
          match dict_comp f d' with
          | Raise e => Raise e
          | Ok r => Ok ((name, b) :: r)
          end
      end
  end.

(** ** Python numbers *)

Class PyNum (num : Type) : Type := {
  (** the [0] that [sum] starts from *)
  py_zero : num;
  (** [x + y] *)
  py_add : num -> num -> num;
  (** [x / n] for the length [n] of a non-empty list *)
  py_truediv : num -> nat -> num
}.

(** binary64, the Python [float] *)
#[global] Instance float_PyNum : PyNum float := {
  py_zero := 0%float;
  py_add := PrimFloat.add;
  py_truediv x n := PrimFloat.div x (PrimFloat.of_uint63 (Uint63.of_Z (Z.of_nat n)))
}.

Section History.
Context {num : Type} `{PyNum num}.

(** [sum(x)] *)
Definition py_sum (x : list num) : num := fold_left py_add x py_zero.

(** [class History(dict)]: metric name -> list of samples *)
Definition History : Type := dict (list num).

(** One turn of the loop of [log_dict]. *)
Definition log_item (prefix : string) (self : History)
           (item : string * num) : History :=
  let '(name, value) := item in
  let name := String.append prefix name in
  match dict_get name self with
  | Some values => dict_set name (values ++ [value]) self
  | None => dict_set name [value] self
  end.

(** [History.log_dict(self, data, prefix="")]; gives [self] after the call *)
Definition log_dict (self : History) (data : dict num) (prefix : string)
  : History :=
  fold_left (log_item prefix) data self.

(** the default [agg_fn], [lambda x: sum(x)/len(x)] *)
Definition mean (x : list num) : result num :=
  let s := py_sum x in
  match List.length x with
  | O => Raise ZeroDivisionError
  | S _ as n => Ok (py_truediv s n)
  end.

(** [History.aggregate(self, agg_fn)]: the returned mapping (or the
    exception), and [self] after the call *)
Definition aggregate (self : History) (agg_fn : list num -> result num)
  : result (dict num) * History :=
  (dict_comp agg_fn self, self).

(** [History.aggregate(self, agg_fn)] for an aggregation function that may
    modify the list it is handed, which is the stored series itself:
    [agg_fn values] is what the call returns or raises, together with the
    list as the call leaves it; the call touches nothing else.  The
    comprehension calls [agg_fn] on the
    series in the order of the keys and stops at the first call that
    raises.  The series are distinct lists, as [log_dict] stores them. *)
Fixpoint aggregate_in_place (self : History)
         (agg_fn : list num -> result num * list num)
  : result (dict num) * History :=
  match self with
  | [] => (Ok [], [])
  | (name, values) :: rest =>
      let '(r, values') := agg_fn values in
      match r with
      | Raise e => (Raise e, (name, values') :: rest)
      | Ok v =>
          let '(rs, rest') := aggregate_in_place rest agg_fn in
          (match rs with
           | Ok d => Ok ((name, v) :: d)
           | Raise e => Raise e
           end,
           (name, values') :: rest')
      end
  end.

(** the series as the calls of [agg_fn] leave them *)
Definition series_after (agg_fn : list num -> result num * list num)
           (self : History) : History :=
  map (fun kv => (fst kv, snd (agg_fn (snd kv)))) self.
End History.

Arguments History num : clear implicits.

(** ** Computations over the framework's state *)

Definition M (world A : Type) : Type := world -> result (A * world).

Section Monad.
Context {world : Type}.

Definition ret {A : Type} (a : A) : M world A := fun w => Ok (a, w).

Definition bind {A B : Type} (c : M world A) (k : A -> M world B)
  : M world B :=
  fun w => match c w with
           | Ok (a, w') => k a w'
           | Raise e => Raise e
           end.

Definition raise {A : Type} (e : exn) : M world A := fun _ => Raise e.

(** a call that only changes the framework's state *)
Definition call (f : world -> world) : M world unit := fun w => Ok (tt, f w).

(** a value or exception computed without touching the state *)
Definition lift {A : Type} (r : result A) : M world A :=
  fun w => match r with Ok a => Ok (a, w) | Raise e => Raise e end.

(** [for x in xs: body], the loop's local variables being [s] *)
Fixpoint for_in {A S : Type} (xs : list A) (body : S -> A -> M world S)
         (s : S) : M world S :=
  match xs with
  | [] => ret s
  | x :: xs' => bind (body s x) (for_in xs' body)
  end.
End Monad.

Notation "x <- c ;; k" := (bind c (fun x => k))
  (at level 61, c at next level, right associativity).
Notation "c ;;; k" := (bind c (fun _ => k))
  (at level 61, right associativity).

(** [range(n)] *)
Definition range (n : Z) : list nat := seq 0 (Z.to_nat n).

(** [enumerate(xs)] *)
Definition enumerate {A : Type} (xs : list A) : list (nat * A) :=
  combine (seq 0 (List.length xs)) xs.

(** ** The PyTorch side *)

(** What the source asks of tensors and of the autograd mode. *)
Class Torch (world tensor num : Type) : Type := {
  (** [t.item()] *)
  item : tensor -> num;
  (** [t.backward()] *)
  backward : tensor -> M world unit;
  (** entering and leaving [with torch.no_grad():] *)
  no_grad_enter : world -> world;
  no_grad_exit : world -> world
}.

Section Korch.
Context {world inputs labels tensor num : Type}.
Context `{PyNum num} `{Torch world tensor num}.

(** [torch.optim.Optimizer] *)
Record Optimizer : Type := {
  zero_grad : M world unit;
  step : M world unit
}.

(** [torchmetrics.MetricCollection]: called on a batch it gives a mapping
    of tensors; [reset] clears its accumulators *)
Record MetricCollection : Type := {
  metrics_call : tensor -> labels -> M world (dict tensor);
  reset : M world unit
}.

(** [class Module(nn.Module)]: what [nn.Module] and the subclass provide,
    and the three attributes that [compile] stores *)
Record KModule : Type := {
  nn_train : world -> world;            (* self.train() *)
  nn_eval : world -> world;             (* self.eval() *)
  forward : inputs -> M world tensor;   (* self(inputs) *)
  loss_fn : option (tensor -> labels -> M world tensor);
  optimizer : option Optimizer;
  metrics : option MetricCollection
}.

Definition StepResult : Type := dict num.

(** [Module.compile(self, loss=None, optimizer=None, metrics=None)] *)
Definition compile (self : KModule)
           (loss : option (tensor -> labels -> M world tensor))
           (optimizer : option Optimizer)
           (metrics : option MetricCollection) : KModule :=
  {| nn_train := nn_train self;
     nn_eval := nn_eval self;
     forward := forward self;
     loss_fn := loss;
     optimizer := optimizer;
     metrics := metrics |}.

(** [self.optimizer.<attr>]: on [None] the attribute access raises *)
Definition optimizer_attr (self : KModule) (attr : string)
  : M world Optimizer :=
  match optimizer self with
  | Some o => ret o
  | None => raise (AttributeError attr)
  end.

(** [self.loss_fn(outputs, labels)]: [None] is not callable *)
Definition call_loss_fn (self : KModule) (outputs : tensor) (lbls : labels)
  : M world tensor :=
  match loss_fn self with
  | Some f => f outputs lbls
  | None => raise (TypeError "'NoneType' object is not callable")
  end.

(** the tail shared by both steps: [## Obtain metrics if needed] *)
Definition obtain_metrics (self : KModule) (outputs : tensor)
           (lbls : labels) (loss : tensor) : M world StepResult :=
  match metrics self with
  | Some mc =>
      ms <- metrics_call mc outputs lbls ;;
      let ms := map (fun nv => (fst nv, item (snd nv))) ms in
      ret (dict_set "Loss" (item loss) ms)
  | None => ret [("Loss"%string, item loss)]
  end.

(** [Module.train_step(self, batch)] *)
Definition train_step (self : KModule) (batch : inputs * labels)
  : M world StepResult :=
  let '(inp, lbls) := batch in
  o <- optimizer_attr self "zero_grad" ;;
  zero_grad o ;;;
  outputs <- forward self inp ;;
  loss <- call_loss_fn self outputs lbls ;;
  backward loss ;;;
  o <- optimizer_attr self "step" ;;
  step o ;;;
  obtain_metrics self outputs lbls loss.

(** [Module.validation_step(self, batch)] *)
Definition validation_step (self : KModule) (batch : inputs * labels)
  : M world StepResult :=
  let '(inp, lbls) := batch in
  outputs <- forward self inp ;;
  loss <- call_loss_fn self outputs lbls ;;
  obtain_metrics self outputs lbls loss.

(** The training loop of one epoch of [fit]: the batch-level history
    after all training batches. *)
Definition fit_train_batches (self : KModule)
           (trainloader : list (inputs * labels)) : M world (History num) :=
  call (nn_train self) ;;;
  let history_batch : History num := [] in
  for_in trainloader
         (fun history_batch batch =>
            batch_metrics <- train_step self batch ;;
            ret (log_dict history_batch batch_metrics ""))
         history_batch.

(** [if validationloader is not None: ...] *)
Definition fit_validation_batches (self : KModule)
           (validationloader : option (list (inputs * labels)))
           (history_batch : History num) : M world (History num) :=
  match validationloader with
  | Some vl =>
      call (nn_eval self) ;;;
      for_in vl
             (fun history_batch batch =>
                call no_grad_enter ;;;
                batch_metrics <- validation_step self batch ;;
                call no_grad_exit ;;;
                ret (log_dict history_batch batch_metrics "Val_"))
             history_batch
  | None => ret history_batch
  end.

(** [self.metrics.reset()] *)
Definition metrics_reset (self : KModule) : M world unit :=
  match metrics self with
  | Some mc => reset mc
  | None => raise (AttributeError "reset")
  end.

(** the body of [for epoch in range(epochs)] *)
Definition fit_epoch (self : KModule)
           (trainloader : list (inputs * labels))
           (validationloader : option (list (inputs * labels)))
           (history_epoch : History num) (epoch : nat)
  : M world (History num) :=
  history_batch <- fit_train_batches self trainloader ;;
  history_batch <- fit_validation_batches self validationloader history_batch ;;
  metrics_reset self ;;;
  agg <- lift (fst (aggregate history_batch mean)) ;;
  ret (log_dict history_epoch agg "").

(** [Module.fit(self, trainloader, epochs, validationloader=None)] *)
Definition fit (self : KModule) (trainloader : list (inputs * labels))
           (epochs : Z) (validationloader : option (list (inputs * labels)))
  : M world (History num) :=
  let history_epoch : History num := [] in
  for_in (range epochs) (fit_epoch self trainloader validationloader)
         history_epoch.

(** [results[name].append(value)] for every item of [result]; [results]
    is the local variable of [evaluate], [None] while it is unbound *)
Definition evaluate_append (results : option (dict (list num)))
           (nv : string * num) : M world (option (dict (list num))) :=
  let '(name, value) := nv in
  match results with
  | None => raise (UnboundLocalError "results")
  | Some r =>
      match dict_get name r with
      | Some values => ret (Some (dict_set name (values ++ [value]) r))
      | None => raise (KeyError name)
      end
  end.

(** the body of the loop of [evaluate] *)
Definition evaluate_body (self : KModule)
           (results : option (dict (list num)))
           (ib : nat * (inputs * labels))
  : M world (option (dict (list num))) :=
  let '(i, batch) := ib in
  if Nat.eqb i 0 then
    results <- validation_step self batch ;;
    ret (Some (map (fun nv => (fst nv, [snd nv])) results))
  else
    result <- validation_step self batch ;;
    for_in result evaluate_append results.

(** [Module.evaluate(self, dataloader)] *)
Definition evaluate (self : KModule) (dataloader : list (inputs * labels))
  : M world (dict num) :=
  call (nn_eval self) ;;;
  results <- for_in (enumerate dataloader) (evaluate_body self) None ;;
  match results with
  | None => raise (UnboundLocalError "results")
  | Some r => lift (dict_comp mean r)
  end.

(** The wording of the specification for [evaluate]: every step result is
    logged, without prefix, into a history made for the call, and the
    mean-aggregated history is returned. *)
Definition evaluate_spec (self : KModule)
           (dataloader : list (inputs * labels)) : M world (dict num) :=
  call (nn_eval self) ;;;
  let history : History num := [] in
  history <- for_in dataloader
                    (fun history batch =>
                       r <- validation_step self batch ;;
                       ret (log_dict history r ""))
                    history ;;
  lift (fst (aggregate history mean)).
End Korch.

Arguments Optimizer world : clear implicits.
Arguments MetricCollection world labels tensor : clear implicits.
Arguments KModule world inputs labels tensor : clear implicits.

(** ** A small concrete framework, for running the code

    The state counts the optimizer steps taken.  A batch is a pair of a
    number and a list of metric names: the network and the loss hand the
    number through, so it is the loss of the batch, and the metric
    collection reports [1.0] under each of the names. *)

Module Toy.
Definition world : Type := nat.
Definition batch : Type := (float * list string)%type.

#[global] Instance toy_Torch : Torch world float float := {
  item t := t;
  backward _ := ret tt;
  no_grad_enter w := w;
  no_grad_exit w := w
}.

Definition sgd : Optimizer world := {|
  zero_grad := ret tt;
  step := call S
|}.

Definition collection : MetricCollection world (list string) float := {|
  metrics_call _ names := ret (map (fun n : string => (n, 1%float)) names);
  reset := ret tt
|}.

Definition loss (outputs : float) (_ : list string) : M world float :=
  ret outputs.

Definition KM : Type := KModule world float (list string) float.

(** the model before [compile] *)
Definition net : KM := {|
  nn_train w := w;
  nn_eval w := w;
  forward x := ret x;
  loss_fn := None;
  optimizer := None;
  metrics := None
|}.

(** [model.compile(loss, optimizer)] and
    [model.compile(loss, optimizer, metrics)] *)
Definition model_plain : KM := compile net (Some loss) (Some sgd) None.
Definition model : KM :=
  compile net (Some loss) (Some sgd) (Some collection).

(** a batch whose step result is [{"Loss": x}] under [model] *)
Definition b (x : float) : batch := (x, []).
(** a batch whose step result also has ["Accuracy"] under [model] *)
Definition b_acc (x : float) : batch := (x, ["Accuracy"%string]).
End Toy.

(** ** Sequences of [log_dict] calls, and what they log under a key *)

Section Logged.
Context {num : Type}.

(** the series stored under a key, empty when the key is absent *)
Definition series (key : string) (h : History num) : list num :=
  match dict_get key h with Some s => s | None => [] end.

(** the values that one [log_dict] call files under [key], in order *)
Definition logged (key prefix : string) (data : dict num) : list num :=
  map snd
      (filter (fun nv => String.eqb (String.append prefix (fst nv)) key) data).

(** the number of entries of one call whose [prefix+name] is [key] *)
Definition count_entries (key prefix : string) (data : dict num) : nat :=
  count_occ string_dec
            (map (fun nv => String.append prefix (fst nv)) data) key.

(** [h.log_dict(data, prefix)] for each call in turn *)
Definition log_calls (h : History num) (calls : list (dict num * string))
  : History num :=
  fold_left (fun h c => log_dict h (fst c) (snd c)) calls h.

Definition logged_calls (key : string) (calls : list (dict num * string))
  : list num :=
  flat_map (fun c => logged key (snd c) (fst c)) calls.

Definition count_calls (key : string) (calls : list (dict num * string))
  : nat :=
  list_sum (map (fun c => count_entries key (snd c) (fst c)) calls).
End Logged.

(** ** Vocabulary of the statements *)

Section HistoryVocabulary.
Context {num : Type} `{PyNum num}.
Implicit Types (h : History num) (vs : list num) (r : dict num).

(** [sum(vs)/len(vs)] as a number, for a non-empty [vs] *)
Definition mean_value vs : num := py_truediv (py_sum vs) (List.length vs).

(** no call ever stores an empty series *)
Definition no_empty_series h : Prop := Forall (fun kv => snd kv <> []) h.

(** the dictionary of singleton lists that the first turn of [evaluate]
    builds *)
Definition singletons r : History num := map (fun nv => (fst nv, [snd nv])) r.
End HistoryVocabulary.

Section RunVocabulary.
Context {world inputs labels tensor num : Type}.
Context `{PyNum num} `{Torch world tensor num}.
Implicit Types (self : KModule world inputs labels tensor)
         (mc : MetricCollection world labels tensor)
         (bs : list (inputs * labels)) (w : world) (h : History num).

(** every result of the training (validation) step has the name *)
Definition train_reports self name : Prop :=
  forall b w (r : dict num) w', train_step self b w = Ok (r, w') -> In name (keys r).

Definition validation_reports self name : Prop :=
  forall b w (r : dict num) w',
    validation_step self b w = Ok (r, w') -> In name (keys r).

(** the keys of the history of a returning run with both sources *)
Definition both_keys_per_epoch self (epochs : Z) h : Prop :=
  (exists s, dict_get "Loss" h = Some s /\ List.length s = Z.to_nat epochs) /\
  (exists s, dict_get "Val_Loss" h = Some s /\
             List.length s = Z.to_nat epochs) /\
  (forall name,
      train_reports self name ->
      exists s, dict_get name h = Some s /\ List.length s = Z.to_nat epochs) /\
  (forall name,
      validation_reports self name ->
      exists s, dict_get (String.append "Val_" name) h = Some s /\
                List.length s = Z.to_nat epochs).

(** [reset] returns from every state *)
Definition reset_returns mc : Prop :=
  forall w, exists w', reset mc w = Ok (tt, w').

(** both steps return on every batch, from every state *)
Definition steps_return self : Prop :=
  (forall b w, exists (r : dict num) w', train_step self b w = Ok (r, w')) /\
  (forall b w, exists (r : dict num) w', validation_step self b w = Ok (r, w')).

(** the step results of a pass over the batches, when every step returns *)
Fixpoint validation_results self bs : M world (list (dict num)) :=
  match bs with
  | [] => ret []
  | b :: bs' =>
      r <- validation_step self b ;;
      rs <- validation_results self bs' ;;
      ret (r :: rs)
  end.
End RunVocabulary.

(** ** The progress line *)

(** [format(value, ".2f")], the builtin behind [{value:.2f}] *)
Class PyFormat (num : Type) : Type := {
  format_2f : num -> string
}.

(** [s[:-1]] *)
Fixpoint drop_last (s : string) : string :=
  match s with
  | EmptyString => EmptyString
  | String c EmptyString => EmptyString
  | String c s' => String c (drop_last s')
  end.

Section ProgressLine.
Context {num : Type} `{PyFormat num}.

(** [f'{prefix}{name}: {value:.2f} '] *)
Definition pbar_entry (prefix : string) (nv : string * num) : string :=
  String.append prefix
    (String.append (fst nv)
       (String.append ": " (String.append (format_2f (snd nv)) " "))).

(** the text of one metric, without the space that follows it *)
Definition pbar_field (prefix : string) (nv : string * num) : string :=
  String.append prefix
    (String.append (fst nv) (String.append ": " (format_2f (snd nv)))).

(** [get_pbar_description_from_batch_metrics(batch_metrics, prefix="")] *)
Definition get_pbar_description_from_batch_metrics
           (batch_metrics : dict num) (prefix : string) : string :=
  let description :=
    fold_left (fun description nv => String.append description (pbar_entry prefix nv))
              batch_metrics ""%string in
  drop_last description.
End ProgressLine.

(** ** Vocabulary of the further statements *)

Section StepVocabulary.
Context {world inputs labels tensor num : Type}.
Context `{PyNum num} `{Torch world tensor num}.
Implicit Types (self : KModule world inputs labels tensor)
         (tl : list (inputs * labels)).

(** [r] is what the training (validation) step returned on some batch of
    the source, from some state *)
Definition train_result self tl (r : dict num) : Prop :=
  exists b w0 w1, In b tl /\ train_step self b w0 = Ok (r, w1).

Definition validation_result self tl (r : dict num) : Prop :=
  exists b w0 w1, In b tl /\ validation_step self b w0 = Ok (r, w1).

(** how the result of a step is made of the loss and of the collection's
    mapping *)
Definition loss_and_metrics self (outputs : tensor) (lbls : labels)
           (loss : tensor) (w : world) (r : dict num) (w' : world) : Prop :=
  dict_get "Loss" r = Some (item loss) /\
  match metrics self with
  | None => r = [("Loss"%string, item loss)] /\ w' = w
  | Some mc =>
      exists ms,
        metrics_call mc outputs lbls w = Ok (ms, w') /\
        (forall k, k <> "Loss"%string ->
                   dict_get k r = option_map item (dict_get k ms)) /\
        keys r = if in_dec string_dec "Loss"%string (keys ms)
                 then keys ms else keys ms ++ ["Loss"%string]
  end.

(** [key] is a name of some training result, or ["Val_"] followed by a
    name of some validation result *)
Definition batch_key self tl (vlo : option (list (inputs * labels)))
           (key : string) : Prop :=
  (exists r, train_result self tl r /\ In key (keys r)) \/
  (exists vl r name,
      vlo = Some vl /\ validation_result self vl r /\ In name (keys r) /\
      key = String.append "Val_" name).

(** a history as the loops of [fit] build it: distinct keys, no empty
    series, every key a [batch_key] *)
Definition history_ok self tl (vlo : option (list (inputs * labels)))
           (h : History num) : Prop :=
  NoDup (keys h) /\ no_empty_series h /\
  forall key, In key (keys h) -> batch_key self tl vlo key.

(** where an exception of [fit] comes from when the data sources raise
    nothing: a training step, a validation step, [reset], or the attribute
    access [self.metrics.reset] on [None] *)
Definition fit_error_source self tl (vlo : option (list (inputs * labels)))
           (e : exn) : Prop :=
  (exists b w0, In b tl /\ train_step (num := num) self b w0 = Raise e) \/
  (exists vl b w0,
      vlo = Some vl /\ In b vl /\
      validation_step (num := num) self b w0 = Raise e) \/
  (exists mc w0, metrics self = Some mc /\ reset mc w0 = Raise e) \/
  (metrics self = None /\ e = AttributeError "reset").

(** the accumulator of [evaluate] after the first turn: bound, with the
    keys of the first step result [r0] and no empty series *)
Definition results_ok (r0 : dict num) (results : option (dict (list num)))
  : Prop :=
  match results with
  | Some res => keys res = keys r0 /\ no_empty_series res
  | None => False
  end.

(** where an exception of [evaluate] comes from when the data source
    raises nothing: the unbound [results] of an empty source, a validation
    step, or a name of a later step result that the first step result did
    not have *)
Definition evaluate_error_source self (bs : list (inputs * labels))
           (w : world) (e : exn) : Prop :=
  (bs = [] /\ e = UnboundLocalError "results") \/
  (exists b w0, In b bs /\ validation_step (num := num) self b w0 = Raise e) \/
  (exists b0 bs' (r0 : dict num) w1 b w2 (r : dict num) w3 name,
      bs = b0 :: bs' /\
      validation_step self b0 (nn_eval self w) = Ok (r0, w1) /\
      In b bs' /\ validation_step self b w2 = Ok (r, w3) /\
      In name (keys r) /\ ~ In name (keys r0) /\ e = KeyError name).
End StepVocabulary.

(** ** The step results of a run *)

Section RunResults.
Context {world inputs labels tensor num : Type}.
Context `{PyNum num} `{Torch world tensor num}.
Implicit Types (self : KModule world inputs labels tensor)
         (tl : list (inputs * labels))
         (vlo : option (list (inputs * labels))).

(** the results of a step over the batches of a source: one per batch, in
    the order of the batches, each step starting from the state that the
    one before left *)
Fixpoint step_results (step : inputs * labels -> M world (dict num))
         (bs : list (inputs * labels)) : M world (list (dict num)) :=
  match bs with
  | [] => ret []
  | b :: bs' =>
      r <- step b ;;
      rs <- step_results step bs' ;;
      ret (r :: rs)
  end.

(** the validation step as [fit] runs it, under [torch.no_grad()] *)
Definition validation_step_no_grad self (b : inputs * labels)
  : M world (dict num) :=
  call no_grad_enter ;;;
  r <- validation_step self b ;;
  call no_grad_exit ;;;
  ret r.

(** the step results of one epoch of [fit], training then validation, with
    the mode switches and the [reset] of the epoch *)
Definition epoch_results self tl vlo
  : M world (list (dict num) * list (dict num)) :=
  call (nn_train self) ;;;
  rs_t <- step_results (train_step self) tl ;;
  rs_v <- match vlo with
          | Some vl =>
              call (nn_eval self) ;;;
              step_results (validation_step_no_grad self) vl
          | None => ret []
          end ;;
  metrics_reset self ;;;
  ret (rs_t, rs_v).

(** the step results of the epochs of a run, epoch after epoch *)
Fixpoint fit_results self tl vlo (epochs : nat)
  : M world (list (list (dict num) * list (dict num))) :=
  match epochs with
  | O => ret []
  | S n =>
      rs <- epoch_results self tl vlo ;;
      rest <- fit_results self tl vlo n ;;
      ret (rs :: rest)
  end.

(** the batch history of an epoch with these results: the training results
    logged without prefix, then the validation results logged with
    ["Val_"] *)
Definition batch_history_of (rs : list (dict num) * list (dict num))
  : History num :=
  log_calls (log_calls [] (map (fun r => (r, ""%string)) (fst rs)))
            (map (fun r => (r, "Val_"%string)) (snd rs)).

(** the mean of every key of that batch history *)
Definition epoch_means (rs : list (dict num) * list (dict num)) : dict num :=
  map (fun kv => (fst kv, mean_value (snd kv))) (batch_history_of rs).

(** the means of the epochs logged without prefix, epoch after epoch *)
Definition history_of_results
           (trace : list (list (dict num) * list (dict num))) : History num :=
  log_calls [] (map (fun rs => (epoch_means rs, ""%string)) trace).

(** what an epoch adds to the series of a key: the mean of the key in its
    batch history, or nothing when the key is not there *)
Definition epoch_sample (key : string)
           (rs : list (dict num) * list (dict num)) : list num :=
  match dict_get key (batch_history_of rs) with
  | Some vs => [mean_value vs]
  | None => []
  end.

(** every result of an epoch is in its batch history: the names of the
    training results as they are, those of the validation results after
    ["Val_"] *)
Definition epoch_logged tl (vl : list (inputs * labels))
           (rs : list (dict num) * list (dict num)) : Prop :=
  List.length (fst rs) = List.length tl /\
  List.length (snd rs) = List.length vl /\
  (forall r name,
      In r (fst rs) -> In name (keys r) ->
      exists vs, dict_get name (batch_history_of rs) = Some vs) /\
  (forall r name,
      In r (snd rs) -> In name (keys r) ->
      exists vs, dict_get (String.append "Val_" name) (batch_history_of rs)
                 = Some vs).

(** the returned history [h] against the step results [trace] of the run *)
Definition every_epoch_logged tl (vl : list (inputs * labels))
           (trace : list (list (dict num) * list (dict num)))
           (h : History num) : Prop :=
  h = history_of_results trace /\
  (forall key, series key h = flat_map (epoch_sample key) trace) /\
  Forall (epoch_logged tl vl) trace /\
  (forall rs r name,
      In rs trace -> In r (fst rs) -> In name (keys r) -> In name (keys h)) /\
  (forall rs r name,
      In rs trace -> In r (snd rs) -> In name (keys r) ->
      In (String.append "Val_" name) (keys h)).
End RunResults.

(** ** Data sources that can fail *)

Section DataSources.
Context {world inputs labels tensor num : Type}.
Context `{PyNum num} `{Torch world tensor num}.
Implicit Types (self : KModule world inputs labels tensor).

(** A data source as the loops use it: [iter(source)], which [enumerate]
    calls; [len(source)], taken for the progress bar; and a pass over the
    source: the batches that [next] yields, in order, and after them the
    end of the iteration or the exception that [next] raises in its
    place. *)
Record DataSource : Type := {
  source_iter : result unit;
  source_len : result Z;
  source_batches : list (inputs * labels);
  source_next_error : option exn
}.

(** a sized sequence of batches, such as a list: no call on it raises *)
Definition sized (batches : list (inputs * labels)) : DataSource := {|
  source_iter := Ok tt;
  source_len := Ok (Z.of_nat (List.length batches));
  source_batches := batches;
  source_next_error := None
|}.

(** [for ... in tqdm(enumerate(source), total=len(source), ...)]: [loop]
    is the turns of the loop over the batches of the pass *)
Definition over_source {S : Type} (source : DataSource)
           (loop : list (inputs * labels) -> M world S) : M world S :=
  lift (source_iter source) ;;;
  lift (source_len source) ;;;
  s <- loop (source_batches source) ;;
  match source_next_error source with
  | Some e => raise e
  | None => ret s
  end.

(** the training loop of one epoch of [fit] over a data source *)
Definition fit_train_batches_source self (trainloader : DataSource)
  : M world (History num) :=
  call (nn_train self) ;;;
  over_source trainloader
    (fun batches =>
       let history_batch : History num := [] in
       for_in batches
              (fun history_batch batch =>
                 batch_metrics <- train_step self batch ;;
                 ret (log_dict history_batch batch_metrics ""))
              history_batch).

(** [if validationloader is not None: ...] over a data source *)
Definition fit_validation_batches_source self
           (validationloader : option DataSource)
           (history_batch : History num) : M world (History num) :=
  match validationloader with
  | Some vl =>
      call (nn_eval self) ;;;
      over_source vl
        (fun batches =>
           for_in batches
                  (fun history_batch batch =>
                     call no_grad_enter ;;;
                     batch_metrics <- validation_step self batch ;;
                     call no_grad_exit ;;;
                     ret (log_dict history_batch batch_metrics "Val_"))
                  history_batch)
  | None => ret history_batch
  end.

(** the body of [for epoch in range(epochs)] over data sources *)
Definition fit_epoch_sources self (trainloader : DataSource)
           (validationloader : option DataSource)
           (history_epoch : History num) (epoch : nat)
  : M world (History num) :=
  history_batch <- fit_train_batches_source self trainloader ;;
  history_batch <-
    fit_validation_batches_source self validationloader history_batch ;;
  metrics_reset self ;;;
  agg <- lift (fst (aggregate history_batch mean)) ;;
  ret (log_dict history_epoch agg "").

(** [Module.fit(self, trainloader, epochs, validationloader=None)] over
    data sources that can fail *)
Definition fit_sources self (trainloader : DataSource) (epochs : Z)
           (validationloader : option DataSource) : M world (History num) :=
  let history_epoch : History num := [] in
  for_in (range epochs) (fit_epoch_sources self trainloader validationloader)
         history_epoch.

(** [Module.evaluate(self, dataloader)] over a data source that can fail *)
Definition evaluate_source self (dataloader : DataSource)
  : M world (dict num) :=
  call (nn_eval self) ;;;
  results <- over_source dataloader
               (fun batches =>
                  for_in (enumerate batches) (evaluate_body self) None) ;;
  match results with
  | None => raise (UnboundLocalError "results")
  | Some r => lift (dict_comp mean r)
  end.

(** [e] is raised by the data source: by [iter], by [len], or by [next]
    after the batches of the pass *)
Definition data_source_error (source : DataSource) (e : exn) : Prop :=
  source_iter source = Raise e \/
  source_len source = Raise e \/
  source_next_error source = Some e.

(** where an exception of [fit] comes from: the steps and [reset], as in
    [fit_error_source], or one of the data sources *)
Definition fit_sources_error_source self (trainloader : DataSource)
           (validationloader : option DataSource) (e : exn) : Prop :=
  fit_error_source (num := num) self (source_batches trainloader)
                   (option_map source_batches validationloader) e \/
  data_source_error trainloader e \/
  (exists vl, validationloader = Some vl /\ data_source_error vl e).

(** where an exception of [evaluate] comes from: as in
    [evaluate_error_source], or the data source *)
Definition evaluate_source_error_source self (dataloader : DataSource)
           (w : world) (e : exn) : Prop :=
  evaluate_error_source (num := num) self (source_batches dataloader) w e \/
  data_source_error dataloader e.
End DataSources.

Arguments DataSource inputs labels : clear implicits.

(** * Properties *)

Unset Implicit Arguments.

(** ** Dictionaries *)

Section DictFacts.
Context {V : Type}.
Implicit Types (d : dict V) (k : string) (v : V).

Lemma dict_get_set_same k v d : dict_get k (dict_set k v d) = Some v.
Proof.
  induction d as [|[k' v'] d IH]; simpl.
  - now rewrite String.eqb_refl.
  - destruct (String.eqb k k') eqn:E; simpl; rewrite E; auto.
Qed.

Lemma dict_get_set_other k k' v d :
  k <> k' -> dict_get k' (dict_set k v d) = dict_get k' d.
Proof.
  intros Hne. induction d as [|[k0 v0] d IH]; simpl.
  - destruct (String.eqb_spec k' k); congruence.
  - destruct (String.eqb_spec k k0) as [->|]; simpl.
    + destruct (String.eqb_spec k' k0); congruence.
    + now rewrite IH.
Qed.

Lemma dict_get_None_keys k d : dict_get k d = None <-> ~ In k (keys d).
Proof.
  induction d as [|[k' v'] d IH]; simpl.
  - tauto.
  - destruct (String.eqb_spec k k') as [->|Hne].
    + split; [discriminate | tauto].
    + rewrite IH. split; [intros Hn [Heq|Hin]; congruence | tauto].
Qed.

Lemma dict_get_Some_keys k d : In k (keys d) <-> exists v, dict_get k d = Some v.
Proof.
  destruct (dict_get k d) eqn:E.
  - split; [eauto|]. intros _.
    destruct (in_dec string_dec k (keys d)) as [Hin|Hout]; [exact Hin|].
    apply dict_get_None_keys in Hout. congruence.
  - apply dict_get_None_keys in E. split; [tauto | intros [v Hv]; discriminate].
Qed.

Lemma dict_set_absent k v d : dict_get k d = None -> dict_set k v d = d ++ [(k, v)].
Proof.
  induction d as [|[k' v'] d IH]; simpl; [reflexivity|].
  destruct (String.eqb k k'); [discriminate|].
  intros Hn. now rewrite IH.
Qed.

Lemma keys_dict_set_present k v d :
  In k (keys d) -> keys (dict_set k v d) = keys d.
Proof.
  induction d as [|[k' v'] d IH]; simpl; [tauto|].
  destruct (String.eqb_spec k k') as [->|Hne]; simpl; [reflexivity|].
  intros [Heq|Hin]; [congruence|]. now rewrite IH.
Qed.

Lemma keys_dict_set_absent k v d :
  ~ In k (keys d) -> keys (dict_set k v d) = keys d ++ [k].
Proof.
  intros Hout. apply dict_get_None_keys in Hout.
  rewrite dict_set_absent by assumption. unfold keys. now rewrite map_app.
Qed.

(** assignment keeps the keys distinct: the list stays a dictionary *)
Lemma NoDup_keys_dict_set k v d :
  NoDup (keys d) -> NoDup (keys (dict_set k v d)).
Proof.
  intros Hnd. destruct (in_dec string_dec k (keys d)) as [Hin|Hout].
  - now rewrite keys_dict_set_present.
  - rewrite keys_dict_set_absent by assumption.
    apply NoDup_app; [assumption | repeat constructor; simpl; tauto |].
    intros x Hx [<-|[]]. contradiction.
Qed.

Lemma in_keys_dict_set k k' v d :
  In k' (keys (dict_set k v d)) <-> k' = k \/ In k' (keys d).
Proof.
  destruct (in_dec string_dec k (keys d)) as [Hin|Hout].
  - rewrite keys_dict_set_present by assumption.
    split; [tauto | intros [->|]; assumption].
  - rewrite keys_dict_set_absent by assumption.
    rewrite in_app_iff. simpl. intuition congruence.
Qed.
End DictFacts.

(** ** [History.log_dict] *)

Arguments log_item : simpl never.

Section LogFacts.
Context {num : Type}.
Implicit Types (h self : History num) (data : dict num)
         (key prefix name : string) (value : num)
         (calls : list (dict num * string)).

Lemma dict_get_log_item key prefix h name value :
  dict_get key (log_item prefix h (name, value)) =
  if String.eqb (String.append prefix name) key
  then Some (series key h ++ [value])
  else dict_get key h.
Proof.
  unfold log_item, series.
  destruct (String.eqb_spec (String.append prefix name) key) as [<-|Hne].
  - destruct (dict_get (String.append prefix name) h);
      now rewrite dict_get_set_same.
  - destruct (dict_get (String.append prefix name) h);
      now rewrite dict_get_set_other.
Qed.

Lemma series_log_item key prefix h name value :
  series key (log_item prefix h (name, value)) =
  series key h ++
  (if String.eqb (String.append prefix name) key then [value] else []).
Proof.
  unfold series at 1. rewrite dict_get_log_item.
  destruct (String.eqb (String.append prefix name) key).
  - reflexivity.
  - unfold series. now rewrite app_nil_r.
Qed.

Lemma series_log_dict key prefix data : forall h,
  series key (log_dict h data prefix) = series key h ++ logged key prefix data.
Proof.
  unfold log_dict, logged.
  induction data as [|[name value] data IH]; intros h; simpl.
  - now rewrite app_nil_r.
  - rewrite IH, series_log_item, <- app_assoc.
    now destruct (String.eqb (String.append prefix name) key).
Qed.

(** a key is present exactly when it was present or something was filed
    under it *)
Lemma dict_get_log_dict key prefix data : forall h,
  dict_get key (log_dict h data prefix) =
  match logged key prefix data with
  | [] => dict_get key h
  | _ :: _ => Some (series key h ++ logged key prefix data)
  end.
Proof.
  unfold log_dict, logged.
  induction data as [|[name value] data IH]; intros h; simpl; [reflexivity|].
  rewrite IH, series_log_item, dict_get_log_item.
  destruct (String.eqb (String.append prefix name) key); simpl.
  - rewrite <- app_assoc. simpl.
    now destruct (filter _ data).
  - now rewrite app_nil_r.
Qed.

Lemma length_logged key prefix data :
  List.length (logged key prefix data) = count_entries key prefix data.
Proof.
  unfold logged, count_entries.
  induction data as [|[name value] data IH]; simpl; [reflexivity|].
  destruct (String.eqb_spec (String.append prefix name) key) as [Heq|Hne];
    destruct (string_dec (String.append prefix name) key); try congruence;
    simpl; now rewrite IH.
Qed.

Lemma series_log_calls key calls : forall h,
  series key (log_calls h calls) = series key h ++ logged_calls key calls.
Proof.
  unfold log_calls, logged_calls.
  induction calls as [|[data prefix] calls IH]; intros h; simpl.
  - now rewrite app_nil_r.
  - now rewrite IH, series_log_dict, app_assoc.
Qed.

Lemma length_logged_calls key calls :
  List.length (logged_calls key calls) = count_calls key calls.
Proof.
  unfold logged_calls, count_calls.
  induction calls as [|[data prefix] calls IH]; simpl; [reflexivity|].
  now rewrite length_app, length_logged, IH.
Qed.

Lemma dict_get_log_calls key calls : forall h,
  dict_get key (log_calls h calls) =
  match logged_calls key calls with
  | [] => dict_get key h
  | _ :: _ => Some (series key h ++ logged_calls key calls)
  end.
Proof.
  unfold log_calls, logged_calls.
  induction calls as [|[data prefix] calls IH]; intros h; simpl;
    [reflexivity|].
  rewrite IH, series_log_dict, dict_get_log_dict. simpl.
  destruct (logged key prefix data) as [|v vs] eqn:E1; simpl.
  - now rewrite app_nil_r.
  - destruct (flat_map _ calls); simpl.
    + now rewrite !app_nil_r.
    + now rewrite <- app_assoc.
Qed.

(** the keys after a call: the old ones and the prefixed names *)
Lemma in_keys_log_dict key prefix data h :
  In key (keys (log_dict h data prefix)) <->
  In key (keys h) \/ In key (map (String.append prefix) (keys data)).
Proof.
  rewrite !dict_get_Some_keys, dict_get_log_dict.
  assert (Hl : logged key prefix data <> [] <->
               In key (map (String.append prefix) (keys data))).
  { unfold logged, keys. induction data as [|[name value] data IH]; simpl.
    - tauto.
    - destruct (String.eqb_spec (String.append prefix name) key); simpl.
      + split; [tauto | discriminate].
      + rewrite IH. tauto. }
  destruct (logged key prefix data) eqn:E.
  - split; [tauto|]. intros [Hh|Hd]; [assumption|].
    apply Hl in Hd. congruence.
  - split; [|eauto]. intros _. right. apply Hl. discriminate.
Qed.

Lemma NoDup_keys_log_dict prefix data : forall h,
  NoDup (keys h) -> NoDup (keys (log_dict h data prefix)).
Proof.
  unfold log_dict.
  induction data as [|[name value] data IH]; intros h Hnd; simpl;
    [assumption|].
  apply IH. unfold log_item.
  destruct (dict_get _ h); now apply NoDup_keys_dict_set.
Qed.

Lemma no_empty_series_dict_set key (s : list num) h :
  s <> [] -> no_empty_series h -> no_empty_series (dict_set key s h).
Proof.
  intros Hs. unfold no_empty_series.
  induction h as [|[k' s'] h IH]; simpl; intros Hh.
  - repeat constructor. assumption.
  - inversion Hh; subst. destruct (String.eqb key k'); constructor; auto.
Qed.

Lemma no_empty_series_log_dict prefix data : forall h,
  no_empty_series h -> no_empty_series (log_dict h data prefix).
Proof.
  unfold log_dict.
  induction data as [|[name value] data IH]; intros h Hh; simpl;
    [assumption|].
  apply IH. unfold log_item.
  destruct (dict_get _ h) as [values|]; apply no_empty_series_dict_set;
    auto; [now destruct values | discriminate].
Qed.

(** C1. Each logged entry [(name, value)] goes under [prefix + name]:
    appended at the end of the series when the key exists, as a new
    singleton series at the end of the history otherwise, the other keys
    being left as they were.  So after any sequence of calls the series
    of a key is its old series followed by the values logged under that
    key, in order, and its length counts the logged entries whose
    [prefix + name] is the key.  Logging [{"Loss": v1}] without prefix
    and [{"Loss": v2}] with prefix ["Val_"] gives the two keys ["Loss"]
    and ["Val_Loss"] with one sample each. *)
Theorem log_dict_keyed_append :
  (forall self name value prefix,
      let key := String.append prefix name in
      log_dict self [(name, value)] prefix =
      match dict_get key self with
      | Some values => dict_set key (values ++ [value]) self
      | None => self ++ [(key, [value])]
      end /\
      forall k, dict_get k (log_dict self [(name, value)] prefix) =
                if String.eqb key k then Some (series k self ++ [value])
                else dict_get k self) /\
  (forall self calls key,
      series key (log_calls self calls) =
      series key self ++ logged_calls key calls /\
      List.length (series key (log_calls self calls)) =
      List.length (series key self) + count_calls key calls) /\
  (forall calls key,
      List.length (series key (log_calls [] calls)) = count_calls key calls /\
      dict_get key (log_calls [] calls) =
      match count_calls key calls with
      | O => None
      | S _ => Some (logged_calls key calls)
      end) /\
  (forall v1 v2 : num,
      log_calls [] [([("Loss"%string, v1)], ""%string);
                    ([("Loss"%string, v2)], "Val_"%string)] =
      [("Loss"%string, [v1]); ("Val_Loss"%string, [v2])]).
Proof.
  repeat split.
  - unfold log_dict; simpl. unfold log_item.
    destruct (dict_get (String.append prefix name) self) eqn:E;
      [reflexivity | now apply dict_set_absent].
  - intros k. unfold log_dict; simpl. apply dict_get_log_item.
  - apply series_log_calls.
  - now rewrite series_log_calls, length_app, length_logged_calls.
  - rewrite series_log_calls.
    change (series key []) with (@nil num). apply length_logged_calls.
  - rewrite dict_get_log_calls, <- length_logged_calls.
    now destruct (logged_calls key calls).
Qed.
End LogFacts.

(** ** [History.aggregate] *)

Section AggregateFacts.
Context {num : Type} `{PyNum num}.
Implicit Types (h : History num) (key : string) (vs : list num).

Lemma mean_nonempty vs : vs <> [] -> mean vs = Ok (mean_value vs).
Proof. destruct vs; [congruence | reflexivity]. Qed.

Lemma mean_raises vs e : mean vs = Raise e -> e = ZeroDivisionError.
Proof. destruct vs; simpl; [intros [= <-]; reflexivity | discriminate]. Qed.

Lemma dict_comp_mean_nonempty h :
  no_empty_series h ->
  dict_comp mean h = Ok (map (fun kv => (fst kv, mean_value (snd kv))) h).
Proof.
  induction 1 as [|[k vs] h Hvs Hh IH]; simpl; [reflexivity|].
  simpl in Hvs. rewrite (mean_nonempty _ Hvs). simpl in IH. now rewrite IH.
Qed.

Lemma dict_get_map_values {A B : Type} (f : A -> B) key (d : dict A) :
  dict_get key (map (fun kv => (fst kv, f (snd kv))) d) =
  option_map f (dict_get key d).
Proof.
  induction d as [|[k a] d IH]; simpl; [reflexivity|].
  now destruct (String.eqb key k).
Qed.

Lemma dict_get_In {A : Type} key (a : A) (d : dict A) :
  dict_get key d = Some a -> In (key, a) d.
Proof.
  induction d as [|[k a'] d IH]; simpl; [discriminate|].
  destruct (String.eqb_spec key k) as [->|Hne].
  - intros [= ->]. now left.
  - intros Hg. right. now apply IH.
Qed.

Lemma dict_comp_mean_empty h key :
  In (key, []) h -> dict_comp mean h = Raise ZeroDivisionError.
Proof.
  induction h as [|[k vs] h IH]; simpl; [tauto|].
  intros [Heq|Hin].
  - injection Heq as -> ->. reflexivity.
  - destruct (mean vs) eqn:E.
    + now rewrite (IH Hin).
    + now rewrite (mean_raises _ _ E).
Qed.

(** C2. On a history whose series are all non-empty, [aggregate] with the
    default function returns, key by key and in the order of the keys,
    [sum(vs)/len(vs)] for the series [vs] of the key, and leaves the history
    as it was; logging [{"Loss": 1.0}] then [{"Loss": 3.0}] and aggregating
    gives [{"Loss": 2.0}]. *)
Theorem aggregate_mean :
  (forall h,
      no_empty_series h ->
      aggregate h mean =
      (Ok (map (fun kv => (fst kv, mean_value (snd kv))) h), h) /\
      forall key vs,
        dict_get key h = Some vs ->
        exists r, fst (aggregate h mean) = Ok r /\
                  dict_get key r =
                  Some (py_truediv (fold_left py_add vs py_zero)
                                   (List.length vs))) /\
  (let h : History float :=
     log_dict (log_dict [] [("Loss"%string, 1%float)] ""%string)
              [("Loss"%string, 3%float)] ""%string in
   aggregate h mean =
   (Ok [("Loss"%string, 2%float)], [("Loss"%string, [1%float; 3%float])])).
Proof.
  split; [|reflexivity].
  intros h Hne. unfold aggregate. rewrite (dict_comp_mean_nonempty _ Hne).
  split; [reflexivity|].
  intros key vs Hget. eexists. split; [reflexivity|].
  rewrite dict_get_map_values, Hget. reflexivity.
Qed.

(** C5. When the series of some key is empty, [aggregate] with the default
    function raises [ZeroDivisionError] (the division [sum(x)/len(x)] by a
    zero length) at the call: no mapping is returned, so no value stands in
    for the key; the history is left as it was. *)
Theorem aggregate_empty_series h key :
  dict_get key h = Some [] ->
  aggregate h mean = (Raise ZeroDivisionError, h) /\
  (forall r, fst (aggregate h mean) <> Ok r).
Proof.
  intros Hget. apply dict_get_In in Hget.
  unfold aggregate. rewrite (dict_comp_mean_empty _ _ Hget).
  split; [reflexivity | discriminate].
Qed.
End AggregateFacts.

Lemma aggregate_mean_witness :
  let h : History float := [("Loss"%string, [1%float; 3%float])] in
  no_empty_series h /\
  aggregate h mean = (Ok [("Loss"%string, 2%float)], h).
Proof.
  intros h.
  assert (Hne : no_empty_series h) by (repeat constructor; discriminate).
  split; [exact Hne|].
  exact (proj1 (proj1 (aggregate_mean (num := float)) h Hne)).
Defined.

Lemma aggregate_empty_series_witness :
  let h : History float :=
    [("Loss"%string, [1%float]); ("Accuracy"%string, [])] in
  dict_get "Accuracy" h = Some [] /\
  aggregate h mean = (Raise ZeroDivisionError, h).
Proof.
  intros h. split; [reflexivity|].
  exact (proj1 (aggregate_empty_series (num := float) h "Accuracy" eq_refl)).
Defined.

(** ** Running computations *)

Section MonadFacts.
Context {world : Type}.

(** a bind returns only when both halves do *)
Lemma bind_inv {A B : Type} (c : M world A) (k : A -> M world B) w b w2 :
  bind c k w = Ok (b, w2) ->
  exists a w1, c w = Ok (a, w1) /\ k a w1 = Ok (b, w2).
Proof.
  unfold bind. destruct (c w) as [[a w1]|e]; [eauto | discriminate].
Qed.

Lemma lift_inv {A : Type} (r : result A) (w : world) a w1 :
  lift r w = Ok (a, w1) -> r = Ok a /\ w1 = w.
Proof. unfold lift. destruct r; [now intros [= -> ->] | discriminate]. Qed.
End MonadFacts.

(** Splits a returning chain of binds into its returning parts. *)
Ltac invert_run H :=
  repeat match type of H with
         | bind _ _ _ = Ok _ =>
             let a := fresh "a" in
             let w := fresh "w" in
             let H1 := fresh "Hrun" in
             apply bind_inv in H; destruct H as (a & w & H1 & H)
         end.

(** ** [Module.fit] and [Module.evaluate] *)

Section KorchFacts.
Context {world inputs labels tensor num : Type}.
Context `{PyNum num} `{Torch world tensor num}.
Implicit Types (self : KModule world inputs labels tensor)
         (tl : list (inputs * labels))
         (vl : option (list (inputs * labels)))
         (w : world) (h hb : History num).

Lemma range_pos (epochs : Z) :
  (1 <= epochs)%Z -> range epochs = 0 :: seq 1 (Z.to_nat epochs - 1).
Proof.
  intros He. unfold range.
  destruct (Z.to_nat epochs) as [|n] eqn:E; [lia|].
  simpl. now rewrite Nat.sub_0_r.
Qed.

(** C8. With [epochs = 0] the loop of [fit] has no turn: the call returns
    the empty history and leaves the framework's state untouched, whatever
    the data sources and whatever [compile] stored (no metrics included). *)
Theorem fit_zero_epochs self tl vl w :
  fit self tl 0 vl w = Ok ([], w).
Proof. reflexivity. Qed.

(** C10. On a data source without batches the loop of [evaluate] never
    binds [results], and the comprehension after the loop raises
    [UnboundLocalError]: no mapping is returned, and the error is not the
    division by zero of an empty series. *)
Theorem evaluate_no_batches self w :
  evaluate self [] w = Raise (UnboundLocalError "results") /\
  (forall r, evaluate self [] w <> Ok r) /\
  evaluate self [] w <> Raise ZeroDivisionError.
Proof. repeat split; discriminate. Qed.

Lemma obtain_metrics_without_metrics self outputs lbls loss w :
  metrics self = None ->
  obtain_metrics self outputs lbls loss w = Ok ([("Loss"%string, item loss)], w).
Proof. unfold obtain_metrics. now intros ->. Qed.

Lemma train_step_without_metrics self b w r w1 :
  metrics self = None ->
  train_step self b w = Ok (r, w1) -> exists l, r = [("Loss"%string, l)].
Proof.
  intros Hm Hrun. destruct b as [inp lbls]. unfold train_step in Hrun.
  invert_run Hrun. rewrite obtain_metrics_without_metrics in Hrun by assumption.
  injection Hrun as <- _. eauto.
Qed.

Lemma validation_step_without_metrics self b w r w1 :
  metrics self = None ->
  validation_step self b w = Ok (r, w1) -> exists l, r = [("Loss"%string, l)].
Proof.
  intros Hm Hrun. destruct b as [inp lbls]. unfold validation_step in Hrun.
  invert_run Hrun. rewrite obtain_metrics_without_metrics in Hrun by assumption.
  injection Hrun as <- _. eauto.
Qed.

(** without metrics an epoch ends in the attribute error, when it gets
    that far *)
Lemma fit_epoch_without_metrics self tl vl h e w :
  metrics self = None ->
  fit_epoch self tl vl h e w =
  match fit_train_batches self tl w with
  | Raise x => Raise x
  | Ok (hb, w1) =>
      match fit_validation_batches self vl hb w1 with
      | Raise x => Raise x
      | Ok _ => Raise (AttributeError "reset")
      end
  end.
Proof.
  intros Hm. unfold fit_epoch, bind, metrics_reset. rewrite Hm.
  destruct (fit_train_batches self tl w) as [[hb w1]|x]; [|reflexivity].
  destruct (fit_validation_batches self vl hb w1) as [[hb' w2]|x]; reflexivity.
Qed.

(** C9. After [compile] stored [metrics = None], a call of [fit] with at
    least one epoch never returns: when the training and validation batches
    of the first epoch go through, the unguarded [self.metrics.reset()]
    raises [AttributeError]; the two steps themselves accept the missing
    metrics and return the ["Loss"] key alone. *)
Theorem fit_without_metrics self tl vl epochs w :
  metrics self = None ->
  (1 <= epochs)%Z ->
  (exists e, fit self tl epochs vl w = Raise e) /\
  (forall hb w1 hb' w2,
      fit_train_batches self tl w = Ok (hb, w1) ->
      fit_validation_batches self vl hb w1 = Ok (hb', w2) ->
      fit self tl epochs vl w = Raise (AttributeError "reset")) /\
  (forall b w0 r w1,
      train_step self b w0 = Ok (r, w1) -> exists l, r = [("Loss"%string, l)]) /\
  (forall b w0 r w1,
      validation_step self b w0 = Ok (r, w1) ->
      exists l, r = [("Loss"%string, l)]).
Proof.
  intros Hm He.
  assert (Hfit : fit self tl epochs vl w =
                 match fit_train_batches self tl w with
                 | Raise x => Raise x
                 | Ok (hb, w1) =>
                     match fit_validation_batches self vl hb w1 with
                     | Raise x => Raise x
                     | Ok _ => Raise (AttributeError "reset")
                     end
                 end).
  { unfold fit. rewrite (range_pos _ He). simpl. unfold bind at 1.
    rewrite (fit_epoch_without_metrics _ _ _ _ _ _ Hm).
    destruct (fit_train_batches self tl w) as [[hb w1]|x]; [|reflexivity].
    destruct (fit_validation_batches self vl hb w1) as [[hb' w2]|x];
      reflexivity. }
  repeat split.
  - rewrite Hfit.
    destruct (fit_train_batches self tl w) as [[hb w1]|x]; [|eauto].
    destruct (fit_validation_batches self vl hb w1) as [[hb' w2]|x]; eauto.
  - intros hb w1 hb' w2 Ht Hv. now rewrite Hfit, Ht, Hv.
  - intros b w0 r w1. now apply train_step_without_metrics.
  - intros b w0 r w1. now apply validation_step_without_metrics.
Qed.
End KorchFacts.

Lemma fit_without_metrics_witness :
  metrics Toy.model_plain = None /\
  (1 <= 1)%Z /\
  fit (num := float) Toy.model_plain [Toy.b 1%float] 1 None 0%nat
  = Raise (AttributeError "reset").
Proof.
  split; [reflexivity|]. split; [lia|].
  refine (proj1 (proj2 (fit_without_metrics (num := float) Toy.model_plain
                          [Toy.b 1%float] None 1 0%nat eq_refl _))
                _ _ _ _ eq_refl eq_refl).
  lia.
Defined.

(** C3. [fit] with [epochs = 2], three training batches and no validation
    source, on a model compiled without metrics (the configuration whose
    training step yields [{"Loss": x}]): the three steps return
    [{"Loss": 1.0}], [{"Loss": 2.0}], [{"Loss": 3.0}], and [fit] raises
    [AttributeError] at the end of the first epoch instead of returning.
    With a metric collection that reports nothing the same call returns
    the history [{"Loss": [2.0, 2.0]}]. *)
Theorem fit_three_batches_without_metrics :
  (forall w, train_step Toy.model_plain (Toy.b 1%float) w
             = Ok ([("Loss"%string, 1%float)], S w)) /\
  (forall w, train_step Toy.model_plain (Toy.b 2%float) w
             = Ok ([("Loss"%string, 2%float)], S w)) /\
  (forall w, train_step Toy.model_plain (Toy.b 3%float) w
             = Ok ([("Loss"%string, 3%float)], S w)) /\
  fit (num := float) Toy.model_plain
      [Toy.b 1%float; Toy.b 2%float; Toy.b 3%float] 2 None 0%nat
  = Raise (AttributeError "reset") /\
  fit Toy.model [Toy.b 1%float; Toy.b 2%float; Toy.b 3%float] 2 None 0%nat
  = Ok ([("Loss"%string, [2%float; 2%float])], 6%nat).
Proof. repeat split. Qed.

(** ** Sources without batches *)

Section ZeroBatches.
Context {world inputs labels tensor num : Type}.
Context `{PyNum num} `{Torch world tensor num}.
Implicit Types (self : KModule world inputs labels tensor)
         (vl : option (list (inputs * labels))) (w : world).

Lemma fit_epoch_zero_batches self mc vl (he : History num) e w :
  metrics self = Some mc ->
  vl = None \/ vl = Some [] ->
  reset_returns mc ->
  exists w1, fit_epoch self [] vl he e w = Ok (he, w1).
Proof.
  intros Hm Hvl Hreset.
  unfold fit_epoch, fit_train_batches, metrics_reset. rewrite Hm.
  destruct Hvl as [-> | ->]; simpl; unfold bind, call; simpl.
  - destruct (Hreset (nn_train self w)) as [w1 ->]. simpl. now exists w1.
  - destruct (Hreset (nn_eval self (nn_train self w))) as [w1 ->]. simpl.
    now exists w1.
Qed.

(** C6, as the code has it.  When the training source, and the validation
    source if there is one, yield no batch, the batch history of the epoch
    has no key: [aggregate] returns the empty mapping without raising, and
    the epoch leaves the epoch-level history as it was.  With a metric
    collection whose [reset] returns, [fit] then returns the empty
    history. *)
Theorem fit_zero_batches self mc vl epochs w :
  metrics self = Some mc ->
  vl = None \/ vl = Some [] ->
  reset_returns mc ->
  aggregate (@nil (string * list num)) mean = (Ok [], []) /\
  (forall (he : History num) e w0,
      exists w1, fit_epoch self [] vl he e w0 = Ok (he, w1)) /\
  exists w1, fit (num := num) self [] epochs vl w = Ok ([], w1).
Proof.
  intros Hm Hvl Hreset.
  split; [reflexivity|]. split.
  - intros he e w0. now apply fit_epoch_zero_batches with (mc := mc).
  - unfold fit. generalize (range epochs) as es. intros es. revert w.
    induction es as [|e es IH]; intros w; simpl; [now eexists|].
    destruct (fit_epoch_zero_batches self mc vl (@nil (string * list num)) e w
                Hm Hvl Hreset) as [w1 Hw1].
    unfold bind. rewrite Hw1. apply IH.
Qed.
End ZeroBatches.

Lemma fit_zero_batches_witness :
  metrics Toy.model = Some Toy.collection /\
  reset_returns Toy.collection /\
  exists w1, fit (num := float) Toy.model [] 3 (Some []) 0%nat = Ok ([], w1).
Proof.
  assert (Hreset : reset_returns Toy.collection)
    by (intros w0; exists w0; reflexivity).
  split; [reflexivity|]. split; [exact Hreset|].
  exact (proj2 (proj2 (fit_zero_batches (num := float) Toy.model
                         Toy.collection (Some []) 3 0%nat
                         eq_refl (or_intror eq_refl) Hreset))).
Defined.

(** C6 as stated fails: with empty sources one epoch of [fit] completes
    and returns, it does not raise the division by zero of an empty
    series. *)
Lemma empty_sources_complete_epoch :
  fit (num := float) Toy.model [] 1 None 0%nat = Ok ([], 0%nat) /\
  fit (num := float) Toy.model [] 1 (Some []) 0%nat = Ok ([], 0%nat) /\
  fit (num := float) Toy.model [] 1 None 0%nat <> Raise ZeroDivisionError.
Proof. repeat split. discriminate. Qed.

(** ** What a loop of logging steps leaves in a history *)

Section LoopFacts.
Context {world num : Type}.
Implicit Types (h hb : History num) (key prefix : string)
         (calls : list (dict num * string)).

Lemma in_keys_log_calls key calls : forall h,
  In key (keys (log_calls h calls)) <->
  In key (keys h) \/
  exists c, In c calls /\ In key (map (String.append (snd c)) (keys (fst c))).
Proof.
  unfold log_calls.
  induction calls as [|[data prefix] calls IH]; intros h; simpl.
  - split; [tauto | intros [Hin|(c & [] & _)]; assumption].
  - rewrite IH, in_keys_log_dict. split.
    + intros [[Hh|Hd]|(c & Hc & Hk)]; [tauto | right | right].
      * exists (data, prefix). auto.
      * exists c. auto.
    + intros [Hh|(c & [<-|Hc] & Hk)]; [tauto | tauto | right; eauto].
Qed.

Lemma NoDup_keys_log_calls calls : forall h,
  NoDup (keys h) -> NoDup (keys (log_calls h calls)).
Proof.
  unfold log_calls.
  induction calls as [|[data prefix] calls IH]; intros h Hnd; simpl;
    [assumption|].
  apply IH. now apply NoDup_keys_log_dict.
Qed.

Lemma no_empty_series_log_calls calls : forall h,
  no_empty_series h -> no_empty_series (log_calls h calls).
Proof.
  unfold log_calls.
  induction calls as [|[data prefix] calls IH]; intros h Hne; simpl;
    [assumption|].
  apply IH. now apply no_empty_series_log_dict.
Qed.

(** A loop whose every turn logs one step result with [prefix] amounts to
    one [log_dict] call per element, on results that satisfy what every
    single result satisfies. *)
Lemma for_in_logs {B : Type} (body : History num -> B -> M world (History num))
      prefix (P : dict num -> Prop) :
  (forall hb b w hb' w',
      body hb b w = Ok (hb', w') ->
      exists r, P r /\ hb' = log_dict hb r prefix) ->
  forall (l : list B) hb w hb' w',
    for_in l body hb w = Ok (hb', w') ->
    exists rs, List.length rs = List.length l /\ Forall P rs /\
               hb' = log_calls hb (map (fun r => (r, prefix)) rs).
Proof.
  intros Hbody. induction l as [|b l IH]; intros hb w hb' w' Hrun; simpl in Hrun.
  - injection Hrun as <- _. exists []. repeat split. constructor.
  - apply bind_inv in Hrun. destruct Hrun as (hb1 & w1 & Hb & Hrun).
    destruct (Hbody _ _ _ _ _ Hb) as (r & Hr & ->).
    destruct (IH _ _ _ _ Hrun) as (rs & Hlen & HP & ->).
    exists (r :: rs). simpl. repeat split; [now rewrite Hlen | now constructor].
Qed.

Lemma keys_dict_comp {A B : Type} (f : A -> result B) (d : dict A) r :
  dict_comp f d = Ok r -> keys r = keys d.
Proof.
  revert r. induction d as [|[k a] d IH]; intros r; simpl.
  - now intros [= <-].
  - destruct (f a); [|discriminate].
    destruct (dict_comp f d); [|discriminate].
    intros [= <-]. simpl. f_equal. now apply IH.
Qed.

(** logging a mapping without prefix adds one sample to each of its keys *)
Lemma length_series_log_dict_NoDup key (agg : dict num) h :
  NoDup (keys agg) ->
  List.length (series key (log_dict h agg "")) =
  List.length (series key h) + (if in_dec string_dec key (keys agg) then 1 else 0).
Proof.
  intros Hnd. rewrite series_log_dict, length_app, length_logged.
  f_equal. unfold count_entries.
  replace (map (fun nv : string * num => String.append "" (fst nv)) agg)
    with (keys agg) by reflexivity.
  destruct (in_dec string_dec key (keys agg)) as [Hin|Hout].
  - now apply NoDup_count_occ'.
  - now apply count_occ_not_In.
Qed.
End LoopFacts.

(** ** [fit] with a validation source *)

Section ValidationFacts.
Context {world inputs labels tensor num : Type}.
Context `{PyNum num} `{Torch world tensor num}.
Implicit Types (self : KModule world inputs labels tensor)
         (tl vl : list (inputs * labels)) (w : world)
         (h hb he : History num) (name key : string).

Lemma obtain_metrics_Loss self outputs lbls loss w (r : dict num) w' :
  obtain_metrics self outputs lbls loss w = Ok (r, w') ->
  In "Loss"%string (keys r).
Proof.
  unfold obtain_metrics. destruct (metrics self) as [mc|].
  - intros Hrun. invert_run Hrun. injection Hrun as <- _.
    apply in_keys_dict_set. now left.
  - intros [= <- _]. now left.
Qed.

Lemma train_reports_Loss self : train_reports self "Loss".
Proof.
  intros [inp lbls] w r w' Hrun. unfold train_step in Hrun.
  invert_run Hrun. eapply obtain_metrics_Loss; eassumption.
Qed.

Lemma validation_reports_Loss self : validation_reports self "Loss".
Proof.
  intros [inp lbls] w r w' Hrun. unfold validation_step in Hrun.
  invert_run Hrun. eapply obtain_metrics_Loss; eassumption.
Qed.

(** the batch history at the end of the training loop *)
Lemma fit_train_batches_inv self tl w hb w' :
  fit_train_batches self tl w = Ok (hb, w') ->
  NoDup (keys hb) /\ no_empty_series hb /\
  (tl <> [] -> forall name, train_reports self name -> In name (keys hb)).
Proof.
  unfold fit_train_batches. intros Hrun. invert_run Hrun.
  apply for_in_logs
    with (prefix := ""%string)
         (P := fun r => exists b w0 w1, train_step self b w0 = Ok (r, w1))
    in Hrun.
  - destruct Hrun as (rs & Hlen & HP & ->). repeat split.
    + apply NoDup_keys_log_calls. constructor.
    + apply no_empty_series_log_calls. constructor.
    + intros Htl name Hname. apply in_keys_log_calls. right.
      destruct rs as [|r rs]; [destruct tl; [congruence | discriminate]|].
      inversion HP as [|? ? (b & wa & wb & Hr) _]; subst.
      exists (r, ""%string). split; [now left|]. simpl.
      change (String.append "") with (fun s : string => s). rewrite map_id.
      exact (Hname _ _ _ _ Hr).
  - intros hb0 b wa hb' wb Hb. invert_run Hb. injection Hb as <- _. eauto 6.
Qed.

(** the batch history at the end of the validation loop *)
Lemma fit_validation_batches_inv self vl hb0 w hb w' :
  fit_validation_batches self (Some vl) hb0 w = Ok (hb, w') ->
  (NoDup (keys hb0) -> NoDup (keys hb)) /\
  (no_empty_series hb0 -> no_empty_series hb) /\
  (forall key, In key (keys hb0) -> In key (keys hb)) /\
  (vl <> [] -> forall name,
      validation_reports self name ->
      In (String.append "Val_" name) (keys hb)).
Proof.
  unfold fit_validation_batches. intros Hrun. invert_run Hrun.
  apply for_in_logs
    with (prefix := "Val_"%string)
         (P := fun r => exists b wa wb, validation_step self b wa = Ok (r, wb))
    in Hrun.
  - destruct Hrun as (rs & Hlen & HP & ->). repeat split.
    + apply NoDup_keys_log_calls.
    + apply no_empty_series_log_calls.
    + intros key Hkey. apply in_keys_log_calls. now left.
    + intros Hvl name Hname. apply in_keys_log_calls. right.
      destruct rs as [|r rs]; [destruct vl; [congruence | discriminate]|].
      inversion HP as [|? ? (b & wa & wb & Hr) _]; subst.
      exists (r, "Val_"%string). split; [now left|].
      apply (in_map (String.append "Val_") (keys r) name).
      exact (Hname _ _ _ _ Hr).
  - intros hb1 b wa hb' wb Hb. invert_run Hb. injection Hb as <- _. eauto 6.
Qed.

(** one returning epoch logs one mapping, whose keys are those of the
    batch history *)
Lemma fit_epoch_inv self tl vl he e w he' w' :
  fit_epoch self tl (Some vl) he e w = Ok (he', w') ->
  exists agg : dict num,
    he' = log_dict he agg "" /\ NoDup (keys agg) /\
    (tl <> [] -> forall name, train_reports self name -> In name (keys agg)) /\
    (vl <> [] -> forall name,
        validation_reports self name ->
        In (String.append "Val_" name) (keys agg)).
Proof.
  unfold fit_epoch. intros Hrun. invert_run Hrun.
  injection Hrun as <- _.
  apply lift_inv in Hrun3. destruct Hrun3 as [Hagg _]. simpl in Hagg.
  apply keys_dict_comp in Hagg.
  destruct (fit_train_batches_inv _ _ _ _ _ Hrun0) as (Hnd & Hne & Htrain).
  destruct (fit_validation_batches_inv _ _ _ _ _ _ Hrun1)
    as (Hnd' & Hne' & Hkeep & Hval).
  eexists. split; [reflexivity|]. rewrite Hagg. repeat split; auto.
Qed.

Lemma fit_epoch_length self tl vl key :
  (forall he e w he' w',
      fit_epoch self tl (Some vl) he e w = Ok (he', w') ->
      exists agg : dict num,
        he' = log_dict he agg "" /\ NoDup (keys agg) /\ In key (keys agg)) ->
  forall (es : list nat) he w h w',
    for_in es (fit_epoch self tl (Some vl)) he w = Ok (h, w') ->
    List.length (series key h) = List.length (series key he) + List.length es.
Proof.
  intros Hepoch. induction es as [|e es IH]; intros he w h w' Hrun;
    simpl in Hrun.
  - injection Hrun as <- _. simpl. lia.
  - apply bind_inv in Hrun. destruct Hrun as (he1 & w1 & He & Hrun).
    rewrite (IH _ _ _ _ Hrun).
    destruct (Hepoch _ _ _ _ _ He) as (agg & -> & Hnd & Hin).
    rewrite length_series_log_dict_NoDup by assumption.
    destruct (in_dec string_dec key (keys agg)); [simpl; lia | contradiction].
Qed.

Lemma fit_series_length self tl vl epochs w h w' key :
  (1 <= epochs)%Z ->
  fit self tl epochs (Some vl) w = Ok (h, w') ->
  (forall he e w0 he' w1,
      fit_epoch self tl (Some vl) he e w0 = Ok (he', w1) ->
      exists agg : dict num,
        he' = log_dict he agg "" /\ NoDup (keys agg) /\ In key (keys agg)) ->
  exists s, dict_get key h = Some s /\ List.length s = Z.to_nat epochs.
Proof.
  intros He Hfit Hepoch. unfold fit in Hfit.
  apply fit_epoch_length with (key := key) in Hfit as Hlen; [|exact Hepoch].
  unfold range in Hlen. rewrite length_seq in Hlen. simpl in Hlen.
  unfold series in Hlen.
  destruct (dict_get key h) as [s|]; [eauto | simpl in Hlen; lia].
Qed.

Lemma returned_history_both_keys self tl vl epochs w h w' :
  (1 <= epochs)%Z ->
  tl <> [] ->
  vl <> [] ->
  fit self tl epochs (Some vl) w = Ok (h, w') ->
  both_keys_per_epoch self epochs h.
Proof.
  intros He Htl Hvl Hfit. unfold both_keys_per_epoch.
  assert (Ht : forall name,
             train_reports self name ->
             exists s, dict_get name h = Some s /\
                       List.length s = Z.to_nat epochs).
  { intros name Hname.
    eapply fit_series_length; [exact He | exact Hfit |].
    intros he e w0 he' w1 Hepoch.
    apply fit_epoch_inv in Hepoch.
    destruct Hepoch as (agg & Heq & Hnd & Htr & _).
    exists agg. auto. }
  assert (Hv : forall name,
             validation_reports self name ->
             exists s, dict_get (String.append "Val_" name) h = Some s /\
                       List.length s = Z.to_nat epochs).
  { intros name Hname.
    eapply fit_series_length; [exact He | exact Hfit |].
    intros he e w0 he' w1 Hepoch.
    apply fit_epoch_inv in Hepoch.
    destruct Hepoch as (agg & Heq & Hnd & _ & Hva).
    exists agg. auto. }
  repeat split; auto.
  - apply Ht, train_reports_Loss.
  - apply (Hv "Loss"%string), validation_reports_Loss.
Qed.
End ValidationFacts.

(** ** When [fit] returns *)

Section FitReturns.
Context {world inputs labels tensor num : Type}.
Context `{PyNum num} `{Torch world tensor num}.
Implicit Types (self : KModule world inputs labels tensor)
         (mc : MetricCollection world labels tensor)
         (tl : list (inputs * labels))
         (vlo : option (list (inputs * labels)))
         (w : world) (h hb he : History num).

Lemma for_in_returns {A S : Type} (body : S -> A -> M world S)
      (I : S -> Prop) :
  (forall s x w, I s -> exists s' w', body s x w = Ok (s', w') /\ I s') ->
  forall (l : list A) s w,
    I s -> exists s' w', for_in l body s w = Ok (s', w') /\ I s'.
Proof.
  intros Hbody. induction l as [|x l IH]; intros s w Hs; simpl.
  - exists s, w. now split.
  - destruct (Hbody s x w Hs) as (s1 & w1 & Hx & Hs1).
    unfold bind. rewrite Hx. now apply IH.
Qed.

Lemma fit_epoch_returns self mc tl vlo he e w :
  metrics self = Some mc ->
  reset_returns mc ->
  steps_return self ->
  exists he' w', fit_epoch self tl vlo he e w = Ok (he', w').
Proof.
  intros Hm Hreset [Htrain Hval].
  unfold fit_epoch, fit_train_batches, fit_validation_batches, metrics_reset.
  rewrite Hm. unfold bind at 1. unfold bind at 1. unfold call at 1.
  destruct (for_in_returns
              (fun history_batch batch =>
                 batch_metrics <- train_step self batch ;;
                 ret (log_dict history_batch batch_metrics ""))
              (@no_empty_series num)) with (l := tl) (s := @nil (string * list num))
                                         (w := nn_train self w)
    as (hb & w1 & -> & Hne).
  { intros s x w0 Hs. destruct (Htrain x w0) as (r & w1 & Hr).
    unfold bind. rewrite Hr. eexists _, _. split; [reflexivity|].
    now apply no_empty_series_log_dict. }
  { constructor. }
  assert (Hv : exists hb' w2,
             match vlo with
             | Some vl =>
                 call (nn_eval self) ;;;
                 for_in vl
                        (fun history_batch batch =>
                           call no_grad_enter ;;;
                           batch_metrics <- validation_step self batch ;;
                           call no_grad_exit ;;;
                           ret (log_dict history_batch batch_metrics "Val_"))
                        hb
             | None => ret hb
             end w1 = Ok (hb', w2) /\ no_empty_series hb').
  { destruct vlo as [vl|]; [|exists hb, w1; now split].
    unfold bind at 1. unfold call at 1.
    apply for_in_returns with (I := @no_empty_series num); [|assumption].
    intros s x w0 Hs. unfold bind at 1. unfold call at 1.
    destruct (Hval x (no_grad_enter w0)) as (r & w2 & Hr).
    unfold bind at 1. rewrite Hr. unfold bind, call, ret.
    eexists _, _. split; [reflexivity|].
    now apply no_empty_series_log_dict. }
  destruct Hv as (hb' & w2 & Hv & Hne').
  unfold bind at 1. rewrite Hv.
  destruct (Hreset w2) as [w3 Hw3]. unfold bind at 1. rewrite Hw3.
  unfold bind, lift, aggregate. simpl fst.
  rewrite (dict_comp_mean_nonempty _ Hne'). now eexists _, _.
Qed.

Lemma fit_returns self mc tl vlo epochs w :
  metrics self = Some mc ->
  reset_returns mc ->
  steps_return self ->
  exists h w', fit self tl epochs vlo w = Ok (h, w').
Proof.
  intros Hm Hreset Hsteps. unfold fit.
  destruct (for_in_returns (fit_epoch self tl vlo) (fun _ => True))
    with (l := range epochs) (s := @nil (string * list num)) (w := w)
    as (h & w' & Hrun & _); [|exact I|now exists h, w'].
  intros s x w0 _.
  destruct (fit_epoch_returns self mc tl vlo s x w0 Hm Hreset Hsteps)
    as (he' & w1 & Hrun).
  now exists he', w1.
Qed.

(** One epoch over three batches whose steps return [{"Loss": v1}],
    [{"Loss": v2}], [{"Loss": v3}], without validation, when a metric
    collection is stored: the epoch logs the mean of the three losses. *)
Lemma fit_epoch_three_batches self mc b1 b2 b3 (v1 v2 v3 : num) he e w :
  metrics self = Some mc ->
  reset_returns mc ->
  (forall w0, exists w1, train_step self b1 w0 = Ok ([("Loss"%string, v1)], w1)) ->
  (forall w0, exists w1, train_step self b2 w0 = Ok ([("Loss"%string, v2)], w1)) ->
  (forall w0, exists w1, train_step self b3 w0 = Ok ([("Loss"%string, v3)], w1)) ->
  exists w',
    fit_epoch self [b1; b2; b3] None he e w
    = Ok (log_dict he [("Loss"%string, mean_value [v1; v2; v3])] "", w').
Proof.
  intros Hm Hreset H1 H2 H3.
  unfold fit_epoch, fit_train_batches, fit_validation_batches, metrics_reset.
  rewrite Hm. simpl for_in. unfold bind, call, ret.
  destruct (H1 (nn_train self w)) as [w1 ->]. cbv beta iota.
  destruct (H2 w1) as [w2 ->]. cbv beta iota.
  destruct (H3 w2) as [w3 ->]. cbv beta iota.
  destruct (Hreset w3) as [w4 ->]. cbv beta iota.
  now exists w4.
Qed.

(** With a metric collection stored, two epochs over these three batches
    return the mean of the three losses, once per epoch. *)
Lemma fit_three_batches_with_metrics self mc b1 b2 b3 (v1 v2 v3 : num) w :
  metrics self = Some mc ->
  reset_returns mc ->
  (forall w0, exists w1, train_step self b1 w0 = Ok ([("Loss"%string, v1)], w1)) ->
  (forall w0, exists w1, train_step self b2 w0 = Ok ([("Loss"%string, v2)], w1)) ->
  (forall w0, exists w1, train_step self b3 w0 = Ok ([("Loss"%string, v3)], w1)) ->
  exists w',
    fit self [b1; b2; b3] 2 None w
    = Ok ([("Loss"%string,
            [mean_value [v1; v2; v3]; mean_value [v1; v2; v3]])], w').
Proof.
  intros Hm Hreset H1 H2 H3. unfold fit. simpl.
  destruct (fit_epoch_three_batches self mc b1 b2 b3 v1 v2 v3 [] 0 w
              Hm Hreset H1 H2 H3) as [w1 Hw1].
  unfold bind at 1. rewrite Hw1.
  destruct (fit_epoch_three_batches self mc b1 b2 b3 v1 v2 v3
              (log_dict [] [("Loss"%string, mean_value [v1; v2; v3])] "")
              1 w1 Hm Hreset H1 H2 H3) as [w2 Hw2].
  unfold bind at 1. rewrite Hw2. now exists w2.
Qed.
End FitReturns.

(** ** [fit] against the step results of its run *)

Section FitResults.
Context {world inputs labels tensor num : Type}.
Context `{PyNum num} `{Torch world tensor num}.
Implicit Types (self : KModule world inputs labels tensor)
         (tl vl : list (inputs * labels))
         (vlo : option (list (inputs * labels)))
         (w : world) (h hb he : History num) (key name : string)
         (rs : list (dict num) * list (dict num))
         (trace : list (list (dict num) * list (dict num))).

Lemma bind_eq {A B : Type} (c : M world A) (k : A -> M world B) w :
  bind c k w = match c w with
               | Ok (a, w') => k a w'
               | Raise e => Raise e
               end.
Proof. reflexivity. Qed.

(** Exposes the cases of the binds that are applied to a state. *)
Ltac run_binds := repeat (first [rewrite bind_eq | progress cbv beta]).

Lemma for_in_ext {A S : Type} (f g : S -> A -> M world S) :
  (forall s x w, f s x w = g s x w) ->
  forall (l : list A) s w, for_in l f s w = for_in l g s w.
Proof.
  intros Hfg. induction l as [|x l IH]; intros s w; simpl; [reflexivity|].
  rewrite !bind_eq, Hfg. destruct (g s x w) as [[s1 w1]|e]; [apply IH|reflexivity].
Qed.

(** a loop that logs the result of every step is the steps, then the
    logging of their results *)
Lemma for_in_step_results (step : inputs * labels -> M world (dict num))
      (prefix : string) (bs : list (inputs * labels)) : forall hb w,
  for_in bs (fun hb b => r <- step b ;; ret (log_dict hb r prefix)) hb w
  = bind (step_results step bs)
         (fun results => ret (log_calls hb (map (fun r => (r, prefix)) results)))
         w.
Proof.
  induction bs as [|b bs IH]; intros hb w; simpl; [reflexivity|].
  rewrite !bind_eq. destruct (step b w) as [[r w1]|e]; [|reflexivity].
  unfold ret at 1. rewrite IH, !bind_eq.
  destruct (step_results step bs w1) as [[results w2]|e]; reflexivity.
Qed.

Lemma step_results_length (step : inputs * labels -> M world (dict num))
      (bs : list (inputs * labels)) : forall w results w',
  step_results step bs w = Ok (results, w') ->
  List.length results = List.length bs.
Proof.
  induction bs as [|b bs IH]; intros w results w' Hrun; simpl in Hrun.
  - now injection Hrun as <- _.
  - invert_run Hrun. injection Hrun as <- _. simpl. f_equal.
    eapply IH. eassumption.
Qed.

Lemma fit_train_batches_results self tl w :
  fit_train_batches self tl w
  = bind (step_results (train_step self) tl)
         (fun results =>
            ret (log_calls [] (map (fun r => (r, ""%string)) results)))
         (nn_train self w).
Proof.
  unfold fit_train_batches. rewrite bind_eq. unfold call.
  apply for_in_step_results.
Qed.

Lemma fit_validation_batches_results self vl hb w :
  fit_validation_batches self (Some vl) hb w
  = bind (step_results (validation_step_no_grad self) vl)
         (fun results =>
            ret (log_calls hb (map (fun r => (r, "Val_"%string)) results)))
         (nn_eval self w).
Proof.
  unfold fit_validation_batches. rewrite bind_eq. unfold call.
  rewrite <- for_in_step_results. apply for_in_ext.
  intros s b w0. unfold validation_step_no_grad.
  rewrite !bind_eq. unfold call. rewrite !bind_eq.
  destruct (validation_step self b (no_grad_enter w0)) as [[r w1]|e];
    reflexivity.
Qed.

Lemma no_empty_series_batch_history rs : no_empty_series (batch_history_of rs).
Proof.
  unfold batch_history_of.
  apply no_empty_series_log_calls, no_empty_series_log_calls. constructor.
Qed.

Lemma NoDup_keys_batch_history rs : NoDup (keys (batch_history_of rs)).
Proof.
  unfold batch_history_of.
  apply NoDup_keys_log_calls, NoDup_keys_log_calls. constructor.
Qed.

(** one epoch of [fit] is the steps of the epoch, then the logging of the
    means of their results *)
Lemma fit_epoch_results self tl vlo he e w :
  fit_epoch self tl vlo he e w
  = bind (epoch_results self tl vlo)
         (fun rs => ret (log_dict he (epoch_means rs) "")) w.
Proof.
  assert (Hagg : forall rs w3,
             lift (fst (aggregate (batch_history_of rs) mean)) w3
             = Ok (epoch_means rs, w3)).
  { intros rs w3. unfold lift, aggregate, epoch_means. simpl fst.
    now rewrite (dict_comp_mean_nonempty _ (no_empty_series_batch_history _)). }
  unfold fit_epoch, epoch_results.
  run_binds. rewrite fit_train_batches_results. unfold call. run_binds.
  destruct (step_results (train_step self) tl (nn_train self w))
    as [[rs_t w1]|x]; [|reflexivity].
  unfold ret at 1. run_binds.
  destruct vlo as [vl|].
  - rewrite fit_validation_batches_results. run_binds.
    destruct (step_results (validation_step_no_grad self) vl (nn_eval self w1))
      as [[rs_v w2]|x]; [|reflexivity].
    unfold ret at 1. run_binds.
    destruct (metrics_reset self w2) as [[u w3]|x]; [|reflexivity].
    run_binds.
    change (log_calls (log_calls [] (map (fun r => (r, ""%string)) rs_t))
                      (map (fun r => (r, "Val_"%string)) rs_v))
      with (batch_history_of (rs_t, rs_v)).
    now rewrite Hagg.
  - unfold fit_validation_batches, ret. cbv beta iota. run_binds.
    destruct (metrics_reset self w1) as [[u w3]|x]; [|reflexivity].
    cbv beta iota. run_binds.
    change (log_calls [] (map (fun r => (r, ""%string)) rs_t))
      with (batch_history_of (rs_t, [])).
    now rewrite Hagg.
Qed.

Lemma fit_epochs_results self tl vlo (es : list nat) : forall he w,
  for_in es (fit_epoch self tl vlo) he w
  = bind (fit_results self tl vlo (List.length es))
         (fun trace =>
            ret (log_calls he (map (fun rs => (epoch_means rs, ""%string)) trace)))
         w.
Proof.
  induction es as [|e es IH]; intros he w; simpl; [reflexivity|].
  rewrite !bind_eq, fit_epoch_results, !bind_eq.
  destruct (epoch_results self tl vlo w) as [[rs w1]|x]; [|reflexivity].
  unfold ret at 1. rewrite IH, !bind_eq.
  destruct (fit_results self tl vlo (List.length es) w1) as [[trace w2]|x];
    reflexivity.
Qed.

(** [fit] is the steps of its epochs, then the logging of the means *)
Lemma fit_as_results self tl vlo epochs w :
  fit self tl epochs vlo w
  = bind (fit_results self tl vlo (Z.to_nat epochs))
         (fun trace => ret (history_of_results trace)) w.
Proof.
  unfold fit. rewrite fit_epochs_results. unfold range.
  now rewrite length_seq.
Qed.

Lemma dict_get_batch_history_train rs (r : dict num) name :
  In r (fst rs) -> In name (keys r) ->
  exists vs, dict_get name (batch_history_of rs) = Some vs.
Proof.
  intros Hr Hname. apply dict_get_Some_keys. unfold batch_history_of.
  apply in_keys_log_calls. left. apply in_keys_log_calls. right.
  exists (r, ""%string). split; [now apply in_map with (f := fun r => (r, ""%string))|].
  simpl. change (String.append "") with (fun s : string => s).
  now rewrite map_id.
Qed.

Lemma dict_get_batch_history_val rs (r : dict num) name :
  In r (snd rs) -> In name (keys r) ->
  exists vs, dict_get (String.append "Val_" name) (batch_history_of rs) = Some vs.
Proof.
  intros Hr Hname. apply dict_get_Some_keys. unfold batch_history_of.
  apply in_keys_log_calls. right.
  exists (r, "Val_"%string).
  split; [now apply in_map with (f := fun r => (r, "Val_"%string))|].
  apply (in_map (String.append "Val_") (keys r) name). exact Hname.
Qed.

Lemma epoch_results_logged self tl vl w rs w' :
  epoch_results self tl (Some vl) w = Ok (rs, w') -> epoch_logged tl vl rs.
Proof.
  unfold epoch_results. intros Hrun. invert_run Hrun.
  injection Hrun as <- _. invert_run Hrun2.
  apply step_results_length in Hrun1. apply step_results_length in Hrun2.
  repeat split; simpl; try assumption.
  - intros r name. apply (dict_get_batch_history_train (a0, a1)).
  - intros r name. apply (dict_get_batch_history_val (a0, a1)).
Qed.

Lemma fit_results_logged self tl vl (n : nat) : forall w trace w',
  fit_results self tl (Some vl) n w = Ok (trace, w') ->
  List.length trace = n /\ Forall (epoch_logged tl vl) trace.
Proof.
  induction n as [|n IH]; intros w trace w' Hrun; simpl in Hrun.
  - injection Hrun as <- _. split; [reflexivity | constructor].
  - invert_run Hrun. injection Hrun as <- _.
    destruct (IH _ _ _ Hrun1) as [Hlen Hall].
    apply epoch_results_logged in Hrun0.
    split; [simpl; now rewrite Hlen | now constructor].
Qed.

(** what a mapping logged without prefix adds under a key *)
Lemma logged_NoDup key (d : dict num) :
  NoDup (keys d) ->
  logged key "" d = match dict_get key d with Some v => [v] | None => [] end.
Proof.
  induction d as [|[k v] d IH]; intros Hnd; [reflexivity|].
  inversion Hnd as [|? ? Hk Hnd']; subst.
  specialize (IH Hnd'). unfold logged in *.
  change (fun nv : string * num => String.eqb (String.append "" (fst nv)) key)
    with (fun nv : string * num => String.eqb (fst nv) key) in *.
  cbn [filter fst snd map dict_get].
  destruct (String.eqb_spec k key) as [->|Hne].
  - rewrite String.eqb_refl. cbn [map snd]. rewrite IH.
    apply dict_get_None_keys in Hk. now rewrite Hk.
  - destruct (String.eqb_spec key k) as [->|_]; [congruence|]. exact IH.
Qed.

Lemma keys_epoch_means rs : keys (epoch_means rs) = keys (batch_history_of rs).
Proof. unfold epoch_means, keys. now rewrite map_map. Qed.

Lemma series_history_of_results key trace :
  series key (history_of_results trace) = flat_map (epoch_sample key) trace.
Proof.
  unfold history_of_results. rewrite series_log_calls.
  change (series key []) with (@nil num). simpl. unfold logged_calls.
  induction trace as [|rs trace IH]; [reflexivity|].
  simpl. rewrite IH. f_equal.
  rewrite logged_NoDup
    by (rewrite keys_epoch_means; apply NoDup_keys_batch_history).
  unfold epoch_means, epoch_sample. rewrite dict_get_map_values.
  now destruct (dict_get key (batch_history_of rs)).
Qed.

Lemma in_keys_history_of_results trace rs key (vs : list num) :
  In rs trace ->
  dict_get key (batch_history_of rs) = Some vs ->
  In key (keys (history_of_results trace)).
Proof.
  intros Hrs Hget. unfold history_of_results.
  apply in_keys_log_calls. right. exists (epoch_means rs, ""%string).
  split; [now apply in_map with (f := fun rs => (epoch_means rs, ""%string))|].
  simpl. change (String.append "") with (fun s : string => s).
  rewrite map_id, keys_epoch_means. apply dict_get_Some_keys. eauto.
Qed.

Lemma every_epoch_logged_results self tl vl (n : nat) w trace w' :
  fit_results self tl (Some vl) n w = Ok (trace, w') ->
  every_epoch_logged tl vl trace (history_of_results trace).
Proof.
  intros Hrun. apply fit_results_logged in Hrun. destruct Hrun as [_ Hall].
  split; [reflexivity|]. split; [intros key; apply series_history_of_results|].
  split; [exact Hall|]. split.
  - intros rs r name Hrs Hr Hname.
    destruct (dict_get_batch_history_train rs r name Hr Hname) as [vs Hvs].
    now apply in_keys_history_of_results with (rs := rs) (vs := vs).
  - intros rs r name Hrs Hr Hname.
    destruct (dict_get_batch_history_val rs r name Hr Hname) as [vs Hvs].
    now apply in_keys_history_of_results with (rs := rs) (vs := vs).
Qed.

(** C7, as the code has it.  [fit] is given a validation source and runs
    at least one epoch, and both sources yield at least one batch.  A
    history that the call returns is then that of the step results of the
    run (one per batch, in every epoch, each step from the state that the
    one before left): in every epoch each training result is logged as it
    is and each validation result is logged into the same batch history
    under ["Val_"], so every name of a training result of the epoch, and
    ["Val_"] followed by every name of a validation result of the epoch,
    is a key of that batch history, and the returned series of a key are
    the means of the key in the batch histories of the epochs that have it,
    in the order of the epochs.  ["Loss"] and ["Val_Loss"], and the names
    that all results carry, have one sample per epoch.  The call does
    return when a metric collection is stored whose [reset] returns and
    the steps return. *)
Theorem fit_validation_keys self tl vl epochs w :
  (1 <= epochs)%Z ->
  tl <> [] ->
  vl <> [] ->
  (forall h w',
      fit self tl epochs (Some vl) w = Ok (h, w') ->
      both_keys_per_epoch self epochs h /\
      exists trace,
        fit_results self tl (Some vl) (Z.to_nat epochs) w = Ok (trace, w') /\
        List.length trace = Z.to_nat epochs /\
        every_epoch_logged tl vl trace h) /\
  (forall mc,
      metrics self = Some mc ->
      reset_returns mc ->
      steps_return self ->
      exists h w',
        fit self tl epochs (Some vl) w = Ok (h, w') /\
        both_keys_per_epoch self epochs h).
Proof.
  intros He Htl Hvl.
  assert (Hkeys : forall h w',
             fit self tl epochs (Some vl) w = Ok (h, w') ->
             both_keys_per_epoch self epochs h).
  { intros h w' Hfit.
    eapply returned_history_both_keys with (tl := tl) (vl := vl);
      eassumption. }
  split.
  - intros h w' Hfit. split; [now apply (Hkeys h w')|].
    rewrite fit_as_results in Hfit. apply bind_inv in Hfit.
    destruct Hfit as (trace & w1 & Hrun & Hret). injection Hret as <- <-.
    exists trace. split; [exact Hrun|]. split.
    + now apply fit_results_logged in Hrun.
    + now apply every_epoch_logged_results in Hrun.
  - intros mc Hm Hreset Hsteps.
    destruct (fit_returns self mc tl (Some vl) epochs w Hm Hreset Hsteps)
      as (h & w' & Hfit).
    exists h, w'. split; [exact Hfit | now apply (Hkeys h w')].
Qed.
End FitResults.

Lemma fit_validation_keys_witness :
  let tl := [Toy.b 1%float; Toy.b_acc 3%float] in
  let vl := [Toy.b_acc 5%float; Toy.b 7%float] in
  let h : History float :=
    [("Loss"%string, [2%float; 2%float]);
     ("Accuracy"%string, [1%float; 1%float]);
     ("Val_Accuracy"%string, [1%float; 1%float]);
     ("Val_Loss"%string, [6%float; 6%float])] in
  (1 <= 2)%Z /\
  fit Toy.model tl 2 (Some vl) 0%nat = Ok (h, 4%nat) /\
  both_keys_per_epoch Toy.model 2 h /\
  exists trace,
    fit_results Toy.model tl (Some vl) (Z.to_nat 2) 0%nat = Ok (trace, 4%nat) /\
    List.length trace = Z.to_nat 2 /\
    every_epoch_logged tl vl trace h.
Proof.
  intros tl vl h.
  assert (Hrun : fit Toy.model tl 2 (Some vl) 0%nat = Ok (h, 4%nat))
    by reflexivity.
  split; [lia|]. split; [exact Hrun|].
  refine (proj1 (@fit_validation_keys
                   _ _ _ _ float _ _ Toy.model tl vl 2 0%nat _ _ _)
                h 4%nat Hrun).
  - lia.
  - intros Hx. discriminate Hx.
  - intros Hx. discriminate Hx.
Defined.

(** C7 as stated fails: a validation source that is supplied but yields no
    batch leaves the returned history without any ["Val_"] key, and a
    training source without batches leaves it without un-prefixed key. *)
Lemma fit_empty_validation_source :
  fit Toy.model [Toy.b 1%float] 1 (Some []) 0%nat
  = Ok ([("Loss"%string, [1%float])], 1%nat) /\
  dict_get "Val_Loss" [("Loss"%string, [1%float])] = None /\
  fit Toy.model [] 1 (Some [Toy.b 5%float]) 0%nat
  = Ok ([("Val_Loss"%string, [5%float])], 0%nat) /\
  dict_get "Loss" [("Val_Loss"%string, [5%float])] = None.
Proof. repeat split. Qed.

(** ** [evaluate] against a history made for the call *)

Section EvaluateFacts.
Context {world inputs labels tensor num : Type}.
Context `{PyNum num} `{Torch world tensor num}.
Implicit Types (self : KModule world inputs labels tensor)
         (bs : list (inputs * labels)) (w : world)
         (r : dict num) (rs : list (dict num)) (res h : History num).

Lemma log_dict_fresh r : forall h,
  NoDup (keys r) ->
  (forall k, In k (keys r) -> ~ In k (keys h)) ->
  log_dict h r "" = h ++ singletons r.
Proof.
  unfold log_dict, singletons.
  induction r as [|[name value] r IH]; intros h Hnd Hdisj; simpl.
  - now rewrite app_nil_r.
  - inversion Hnd as [|? ? Hname Hnd']; subst.
    assert (Hout : dict_get name h = None).
    { apply dict_get_None_keys. apply Hdisj. now left. }
    unfold log_item. simpl. rewrite Hout, dict_set_absent by assumption.
    rewrite IH; [now rewrite <- app_assoc | assumption |].
    intros k Hk. unfold keys. rewrite map_app, in_app_iff. simpl.
    intros [Hh|[<-|[]]]; [|contradiction].
    apply (Hdisj k); [now right | assumption].
Qed.

Lemma keys_singletons r : keys (singletons r) = keys r.
Proof. unfold singletons, keys. now rewrite map_map. Qed.

(** appending under names that are all present is [log_dict] *)
Lemma for_in_evaluate_append r : forall res w,
  incl (keys r) (keys res) ->
  for_in r (evaluate_append (world := world)) (Some res) w
  = Ok (Some (log_dict res r ""), w).
Proof.
  unfold log_dict.
  induction r as [|[name value] r IH]; intros res w Hincl; simpl;
    [reflexivity|].
  assert (Hin : In name (keys res)) by (apply Hincl; now left).
  destruct (proj1 (dict_get_Some_keys name res) Hin) as [values Hget].
  unfold bind, log_item. simpl. rewrite Hget. simpl.
  apply IH. intros k Hk. rewrite keys_dict_set_present by assumption.
  apply Hincl. now right.
Qed.

(** the turns of [evaluate] after the first *)
Lemma for_in_evaluate_body self bs : forall n res w rs w',
  validation_results self bs w = Ok (rs, w') ->
  Forall (fun r => incl (keys r) (keys res)) rs ->
  for_in (combine (seq (S n) (List.length bs)) bs) (evaluate_body self)
         (Some res) w
  = Ok (Some (log_calls res (map (fun r => (r, ""%string)) rs)), w').
Proof.
  induction bs as [|b bs IH]; intros n res w rs w' Hres Hincl;
    simpl in Hres.
  - injection Hres as <- <-. reflexivity.
  - invert_run Hres. injection Hres as <- <-.
    inversion Hincl as [|? ? Ha Hrest]; subst.
    simpl. unfold bind at 1. unfold bind at 1. rewrite Hrun.
    rewrite for_in_evaluate_append by assumption.
    apply IH; [assumption|].
    apply Forall_impl with (2 := Hrest).
    intros r Hr k Hk. apply in_keys_log_dict. left. now apply Hr.
Qed.

(** the loop of the reference computation *)
Lemma for_in_log_results self bs : forall h w rs w',
  validation_results self bs w = Ok (rs, w') ->
  for_in bs
         (fun history batch =>
            r <- validation_step self batch ;; ret (log_dict history r ""))
         h w
  = Ok (log_calls h (map (fun r => (r, ""%string)) rs), w').
Proof.
  induction bs as [|b bs IH]; intros h w rs w' Hres; simpl in Hres.
  - injection Hres as <- <-. reflexivity.
  - invert_run Hres. injection Hres as <- <-.
    simpl. unfold bind at 1. unfold bind at 1. rewrite Hrun.
    now apply IH.
Qed.

Lemma evaluate_returns self b bs w r0 rs w' :
  validation_results self (b :: bs) (nn_eval self w) = Ok (r0 :: rs, w') ->
  NoDup (keys r0) ->
  Forall (fun r => incl (keys r) (keys r0)) rs ->
  let history := log_calls [] (map (fun r => (r, ""%string)) (r0 :: rs)) in
  evaluate self (b :: bs) w
  = Ok (map (fun kv => (fst kv, mean_value (snd kv))) history, w') /\
  evaluate_spec self (b :: bs) w
  = Ok (map (fun kv => (fst kv, mean_value (snd kv))) history, w').
Proof.
  intros Hres Hnd Hincl history.
  assert (Hne : no_empty_series history)
    by (apply no_empty_series_log_calls; constructor).
  pose proof (for_in_log_results self (b :: bs) [] _ _ _ Hres) as Hspec.
  simpl in Hres. invert_run Hres. injection Hres as -> -> ->.
  assert (Hfirst : singletons r0 = log_dict [] r0 "").
  { rewrite log_dict_fresh; [reflexivity | assumption | intros k _ []]. }
  assert (Hhist : history
                  = log_calls (singletons r0) (map (fun r => (r, ""%string)) rs)).
  { subst history. rewrite Hfirst. reflexivity. }
  split.
  - unfold evaluate, enumerate. simpl.
    unfold bind at 1. unfold call at 1.
    unfold bind at 1. unfold bind at 1. unfold bind at 1. rewrite Hrun.
    unfold ret at 1. fold (singletons r0).
    rewrite for_in_evaluate_body with (rs := rs) (w' := w').
    + rewrite <- Hhist. unfold lift.
      now rewrite (dict_comp_mean_nonempty _ Hne).
    + assumption.
    + now rewrite keys_singletons.
  - unfold evaluate_spec. unfold bind at 1. unfold call at 1.
    unfold bind at 1. rewrite Hspec. unfold lift, aggregate. simpl fst.
    fold history. now rewrite (dict_comp_mean_nonempty _ Hne).
Qed.

(** C4, as the code has it.  On a non-empty sequence of batches whose
    validation steps all return, the first result having distinct names and
    every later result using only names of the first, [evaluate] returns
    exactly what the reference computation returns: the mean, key by key,
    of the history in which every step result was logged without prefix.
    Over batches yielding [{"Loss": 2.0}] and [{"Loss": 4.0}] it returns
    [{"Loss": 3.0}]. *)
Theorem evaluate_refines_history :
  (forall self b bs w r0 rs w',
      validation_results self (b :: bs) (nn_eval self w) = Ok (r0 :: rs, w') ->
      NoDup (keys r0) ->
      Forall (fun r => incl (keys r) (keys r0)) rs ->
      evaluate self (b :: bs) w = evaluate_spec self (b :: bs) w /\
      evaluate self (b :: bs) w
      = Ok (map (fun kv => (fst kv, mean_value (snd kv)))
                (log_calls [] (map (fun r => (r, ""%string)) (r0 :: rs))),
            w')) /\
  evaluate Toy.model [Toy.b 2%float; Toy.b 4%float] 0%nat
  = Ok ([("Loss"%string, 3%float)], 0%nat) /\
  evaluate_spec Toy.model [Toy.b 2%float; Toy.b 4%float] 0%nat
  = Ok ([("Loss"%string, 3%float)], 0%nat).
Proof.
  split; [|split; reflexivity].
  intros self b bs w r0 rs w' Hres Hnd Hincl.
  destruct (evaluate_returns self b bs w r0 rs w' Hres Hnd Hincl) as [He Hs].
  split; [now rewrite He, Hs | exact He].
Qed.
End EvaluateFacts.

Lemma evaluate_refines_history_witness :
  let bs := [Toy.b_acc 2%float; Toy.b 4%float] in
  let r0 := [("Accuracy"%string, 1%float); ("Loss"%string, 2%float)] in
  let rs := [[("Loss"%string, 4%float)]] in
  validation_results Toy.model bs 0%nat = Ok (r0 :: rs, 0%nat) /\
  NoDup (keys r0) /\
  Forall (fun r => incl (keys r) (keys r0)) rs /\
  evaluate Toy.model bs 0%nat = evaluate_spec Toy.model bs 0%nat.
Proof.
  intros bs r0 rs.
  assert (Hnd : NoDup (keys r0)).
  { repeat constructor; simpl; intuition discriminate. }
  assert (Hincl : Forall (fun r => incl (keys r) (keys r0)) rs).
  { apply Forall_cons; [|apply Forall_nil].
    intros k Hk. simpl in Hk |- *. tauto. }
  split; [reflexivity|]. split; [exact Hnd|]. split; [exact Hincl|].
  exact (proj1 (proj1 (@evaluate_refines_history
                         Toy.world float (list string) float float _ _)
                      Toy.model (Toy.b_acc 2%float) [Toy.b 4%float] 0%nat
                      r0 rs 0%nat eq_refl Hnd Hincl)).
Defined.

(** C4 as stated fails: when a later batch brings a name that the first
    result did not have, [evaluate] raises [KeyError] where the reference
    computation returns a mapping with the new key. *)
Lemma evaluate_new_name_raises :
  evaluate Toy.model [Toy.b 2%float; Toy.b_acc 4%float] 0%nat
  = Raise (KeyError "Accuracy") /\
  evaluate_spec Toy.model [Toy.b 2%float; Toy.b_acc 4%float] 0%nat
  = Ok ([("Loss"%string, 3%float); ("Accuracy"%string, 1%float)], 0%nat) /\
  evaluate (num := float) Toy.model [Toy.b 2%float; Toy.b_acc 4%float] 0%nat
  <> evaluate_spec Toy.model [Toy.b 2%float; Toy.b_acc 4%float] 0%nat.
Proof. repeat split. discriminate. Qed.

(** * Further properties of the code *)

(** ** The progress line *)

Section StringFacts.
Lemma append_assoc (a b c : string) :
  String.append (String.append a b) c = String.append a (String.append b c).
Proof. induction a as [|ch a IH]; simpl; [reflexivity | now rewrite IH]. Qed.

Lemma append_nil_r (a : string) : String.append a "" = a.
Proof. induction a as [|ch a IH]; simpl; [reflexivity | now rewrite IH]. Qed.

Lemma drop_last_append (a b : string) :
  b <> ""%string -> drop_last (String.append a b) = String.append a (drop_last b).
Proof.
  intros Hb. induction a as [|ch a IH]; simpl; [reflexivity|].
  rewrite IH. destruct (String.append a b) eqn:E; [|reflexivity].
  destruct a; simpl in E; [congruence | discriminate].
Qed.

Lemma prefix_append (p s : string) : String.prefix p (String.append p s) = true.
Proof.
  induction p as [|ch p IH]; simpl; [now destruct s|].
  destruct (Ascii.ascii_dec ch ch); [exact IH | congruence].
Qed.
End StringFacts.

Section ProgressFacts.
Context {num : Type} `{PyFormat num}.

Lemma pbar_entry_field prefix nv :
  pbar_entry prefix nv = String.append (pbar_field prefix nv) " ".
Proof.
  unfold pbar_entry, pbar_field. now rewrite !append_assoc.
Qed.

Lemma fold_left_pbar prefix (bm : dict num) : forall acc,
  fold_left (fun d nv => String.append d (pbar_entry prefix nv)) bm acc
  = String.append acc
      (fold_right (fun nv t => String.append (pbar_entry prefix nv) t) ""%string bm).
Proof.
  induction bm as [|nv bm IH]; intros acc; simpl.
  - now rewrite append_nil_r.
  - now rewrite IH, append_assoc.
Qed.

Lemma drop_last_entries prefix (bm : dict num) :
  drop_last (fold_right (fun nv t => String.append (pbar_entry prefix nv) t)
                        ""%string bm)
  = String.concat " " (map (pbar_field prefix) bm).
Proof.
  induction bm as [|nv bm IH]; [reflexivity|].
  destruct bm as [|nv' bm].
  - simpl. rewrite append_nil_r, pbar_entry_field.
    rewrite drop_last_append by discriminate. simpl. apply append_nil_r.
  - change (fold_right _ _ (nv :: nv' :: bm))
      with (String.append (pbar_entry prefix nv)
              (fold_right (fun nv t => String.append (pbar_entry prefix nv) t)
                          ""%string (nv' :: bm))).
    rewrite drop_last_append.
    + rewrite IH, pbar_entry_field, append_assoc. reflexivity.
    + simpl. rewrite pbar_entry_field, append_assoc.
      destruct (pbar_field prefix nv'); discriminate.
Qed.

(** X1. The progress line is the texts [prefix + name + ": " + value to two
    decimals] of the metrics, in the order of the mapping, joined by single
    spaces: the line of an empty mapping is empty, and the space that the
    loop puts after every metric does not end the line. *)
Theorem pbar_description_joins (batch_metrics : dict num) prefix :
  get_pbar_description_from_batch_metrics batch_metrics prefix
  = String.concat " " (map (pbar_field prefix) batch_metrics).
Proof.
  unfold get_pbar_description_from_batch_metrics.
  rewrite fold_left_pbar. simpl. apply drop_last_entries.
Qed.
End ProgressFacts.

(** ** More on [History.log_dict] and [History.aggregate] *)

Section HistoryExtras.
Context {num : Type} `{PyNum num}.
Implicit Types (h self : History num) (data : dict num)
         (key prefix name : string) (value : num)
         (calls : list (dict num * string)).

Lemma keys_log_item prefix h name value :
  keys (log_item prefix h (name, value)) =
  if in_dec string_dec (String.append prefix name) (keys h)
  then keys h
  else keys h ++ [String.append prefix name].
Proof.
  unfold log_item.
  destruct (in_dec string_dec (String.append prefix name) (keys h)) as [Hin|Hout].
  - destruct (dict_get (String.append prefix name) h);
      now apply keys_dict_set_present.
  - destruct (dict_get (String.append prefix name) h);
      now apply keys_dict_set_absent.
Qed.

(** X2. [log_dict] never removes or reorders a key: the keys after the call
    are the keys before it, in the same order, followed by the new
    [prefix + name] keys, each of them once. *)
Theorem log_dict_keeps_key_order data prefix : forall h,
  exists fresh,
    keys (log_dict h data prefix) = keys h ++ fresh /\
    NoDup fresh /\
    forall k, In k fresh <->
              In k (map (String.append prefix) (keys data)) /\ ~ In k (keys h).
Proof.
  unfold log_dict.
  induction data as [|[name value] data IH]; intros h; simpl.
  - exists []. rewrite app_nil_r. repeat split; [constructor | | |]; tauto.
  - destruct (IH (log_item prefix h (name, value))) as (fresh & Hk & Hnd & Hin).
    rewrite keys_log_item in Hk, Hin.
    destruct (in_dec string_dec (String.append prefix name) (keys h)) as [Hp|Ha].
    + exists fresh. split; [exact Hk|]. split; [exact Hnd|].
      intros k. rewrite Hin. split; [tauto|].
      intros [[<-|Hd] Hout]; [contradiction | tauto].
    + exists (String.append prefix name :: fresh).
      split; [now rewrite Hk, <- app_assoc|]. split.
      * constructor; [|exact Hnd]. rewrite Hin, in_app_iff. simpl. tauto.
      * intros k. simpl. rewrite Hin, in_app_iff. simpl.
        destruct (string_dec (String.append prefix name) k) as [<-|Hne];
          tauto.
Qed.

Lemma logged_not_prefixed key prefix data :
  String.prefix prefix key = false -> logged key prefix data = [].
Proof.
  intros Hp. unfold logged.
  induction data as [|[name value] data IH]; simpl; [reflexivity|].
  destruct (String.eqb_spec (String.append prefix name) key) as [<-|Hne];
    [|exact IH].
  rewrite prefix_append in Hp. discriminate.
Qed.

(** X3. A call with a prefix touches only keys that begin with the prefix:
    under every other key the history is after the call what it was
    before, whatever is logged. *)
Theorem log_dict_prefix_isolation h data prefix key :
  String.prefix prefix key = false ->
  dict_get key (log_dict h data prefix) = dict_get key h.
Proof.
  intros Hp. rewrite dict_get_log_dict.
  now rewrite (logged_not_prefixed key prefix data Hp).
Qed.

(** X4. A history filled by [log_dict] calls alone, from the empty one, has
    no empty series, so [aggregate] with the default function returns on
    it: the mean of every key, in the order of the keys. *)
Theorem aggregate_after_logging calls :
  no_empty_series (log_calls [] calls) /\
  aggregate (log_calls [] calls) mean =
  (Ok (map (fun kv => (fst kv, mean_value (snd kv))) (log_calls [] calls)),
   log_calls [] calls).
Proof.
  assert (Hne : no_empty_series (log_calls (@nil (string * list num)) calls))
    by (apply no_empty_series_log_calls; constructor).
  split; [exact Hne|].
  unfold aggregate. now rewrite (dict_comp_mean_nonempty _ Hne).
Qed.

Lemma dict_comp_returns {A B : Type} (f : A -> result B) (d : dict A) :
  (forall key a, In (key, a) d -> exists b, f a = Ok b) ->
  exists r, dict_comp f d = Ok r /\ keys r = keys d /\
            forall key a, dict_get key d = Some a ->
                          exists b, f a = Ok b /\ dict_get key r = Some b.
Proof.
  induction d as [|[k a] d IH]; intros Hf; simpl.
  - exists []. repeat split. intros key a [=].
  - destruct (Hf k a (or_introl eq_refl)) as [b Hb]. rewrite Hb.
    destruct IH as (r & -> & Hkeys & Hget).
    { intros key a' Hin. apply (Hf key a'). now right. }
    exists ((k, b) :: r). split; [reflexivity|]. split.
    + simpl. now rewrite Hkeys.
    + intros key a'. simpl. destruct (String.eqb key k).
      * intros [= <-]. eauto.
      * apply Hget.
Qed.

(** X5. [aggregate] hands the aggregation function the stored series, one
    call per key in the order of the keys, and the function may modify the
    list it is handed.  When every call returns, the returned mapping has
    the keys of the history, in their order, and holds under each key what
    the call on its series returned; each series is afterwards as its call
    left it.  So with a function that modifies no list the history is left
    as it was, and the result is that of the function read as a function of
    the values. *)
Theorem aggregate_any_function h
        (agg_fn : list num -> result num * list num) :
  (forall key vs, In (key, vs) h -> exists v, fst (agg_fn vs) = Ok v) ->
  exists r,
    aggregate_in_place h agg_fn = (Ok r, series_after agg_fn h) /\
    keys r = keys h /\
    (forall key vs, dict_get key h = Some vs ->
                    exists v, fst (agg_fn vs) = Ok v /\
                              dict_get key r = Some v) /\
    ((forall key vs, In (key, vs) h -> snd (agg_fn vs) = vs) ->
     aggregate_in_place h agg_fn = (Ok r, h) /\
     aggregate h (fun vs => fst (agg_fn vs)) = (Ok r, h)).
Proof.
  intros Hf.
  destruct (dict_comp_returns (fun vs => fst (agg_fn vs)) h Hf)
    as (r & Hr & Hk & Hg).
  exists r.
  assert (Hrun : aggregate_in_place h agg_fn = (Ok r, series_after agg_fn h)).
  { clear Hk Hg. revert r Hr.
    induction h as [|[k vs] h IH]; intros r Hr; simpl in Hr |- *.
    - now injection Hr as <-.
    - destruct (Hf k vs (or_introl eq_refl)) as [v Hv].
      rewrite Hv in Hr. destruct (agg_fn vs) as [rv vs'] eqn:Ecall.
      simpl in Hv. subst rv.
      destruct (dict_comp (fun vs => fst (agg_fn vs)) h) as [d|e] eqn:Ed;
        [|discriminate].
      injection Hr as <-.
      rewrite (IH (fun key s Hin => Hf key s (or_intror Hin)) d eq_refl).
      reflexivity. }
  split; [exact Hrun|]. split; [exact Hk|]. split; [exact Hg|].
  intros Hsame.
  assert (Hafter : series_after agg_fn h = h).
  { unfold series_after. clear - Hsame.
    induction h as [|[k vs] h IH]; [reflexivity|]. simpl.
    rewrite (Hsame k vs (or_introl eq_refl)).
    now rewrite (IH (fun key s Hin => Hsame key s (or_intror Hin))). }
  split; [now rewrite Hrun, Hafter|].
  unfold aggregate. now rewrite Hr.
Qed.

(** X6. When a call of the aggregation function raises, [aggregate] lets
    the exception of the first failing series, in the order of the keys,
    escape and returns no mapping.  The series before it are as their calls
    left them, the failing series is as the failing call left it, and the
    series after it have not been handed to the function: they are as they
    were. *)
Theorem aggregate_first_failure h1 key vs h2
        (agg_fn : list num -> result num * list num) e vs' :
  (forall k s, In (k, s) h1 -> exists v, fst (agg_fn s) = Ok v) ->
  agg_fn vs = (Raise e, vs') ->
  aggregate_in_place (h1 ++ (key, vs) :: h2) agg_fn
  = (Raise e, series_after agg_fn h1 ++ (key, vs') :: h2) /\
  fst (aggregate (h1 ++ (key, vs) :: h2) (fun s => fst (agg_fn s)))
  = Raise e.
Proof.
  intros Hok Hraise. split.
  - induction h1 as [|[k s] h1 IH]; simpl.
    + now rewrite Hraise.
    + destruct (Hok k s (or_introl eq_refl)) as [v Hv].
      destruct (agg_fn s) as [rv s'] eqn:Ecall. simpl in Hv. subst rv.
      rewrite IH by (intros k' s0 Hin; apply (Hok k' s0); now right).
      reflexivity.
  - unfold aggregate. simpl.
    induction h1 as [|[k s] h1 IH]; simpl.
    + now rewrite Hraise.
    + destruct (Hok k s (or_introl eq_refl)) as [v ->].
      rewrite IH; [reflexivity|].
      intros k' s' Hin. apply (Hok k' s'). now right.
Qed.
End HistoryExtras.

Lemma log_dict_prefix_isolation_witness :
  let h : History float := [("Loss"%string, [1%float])] in
  let data : dict float := [("Loss"%string, 2%float)] in
  String.prefix "Val_" "Loss" = false /\
  dict_get "Loss" (log_dict h data "Val_") = Some [1%float].
Proof.
  intros h data. split; [reflexivity|].
  exact (log_dict_prefix_isolation h data "Val_" "Loss" eq_refl).
Defined.

Lemma aggregate_any_function_witness :
  let h : History float :=
    [("Loss"%string, [1%float; 3%float]); ("Accuracy"%string, [])] in
  let total_and_clear : list float -> result float * list float :=
    fun vs => (Ok (py_sum vs), []) in
  (forall key vs, In (key, vs) h ->
                  exists v, fst (total_and_clear vs) = Ok v) /\
  exists r,
    aggregate_in_place h total_and_clear
    = (Ok r, [("Loss"%string, []); ("Accuracy"%string, [])]) /\
    keys r = keys h.
Proof.
  intros h total_and_clear.
  assert (Hf : forall key vs, In (key, vs) h ->
                              exists v, fst (total_and_clear vs) = Ok v)
    by (intros key vs _; exists (py_sum vs); reflexivity).
  split; [exact Hf|].
  destruct (aggregate_any_function h total_and_clear Hf)
    as (r & Hr & Hk & _).
  exists r. split; assumption.
Defined.

Lemma aggregate_first_failure_witness :
  let h1 : History float := [("Loss"%string, [1%float])] in
  let h2 : History float := [("Val_Loss"%string, [2%float])] in
  let mean_and_clear : list float -> result float * list float :=
    fun vs => (mean vs, []) in
  (forall k s, In (k, s) h1 -> exists v, fst (mean_and_clear s) = Ok v) /\
  mean_and_clear [] = (Raise ZeroDivisionError, []) /\
  aggregate_in_place (h1 ++ ("Accuracy"%string, []) :: h2) mean_and_clear
  = (Raise ZeroDivisionError,
     [("Loss"%string, []); ("Accuracy"%string, []);
      ("Val_Loss"%string, [2%float])]).
Proof.
  intros h1 h2 mean_and_clear.
  assert (Hok : forall k s, In (k, s) h1 ->
                            exists v, fst (mean_and_clear s) = Ok v).
  { intros k s [[= <- <-]|[]]. eexists. reflexivity. }
  split; [exact Hok|]. split; [reflexivity|].
  exact (proj1 (aggregate_first_failure h1 "Accuracy" [] h2 mean_and_clear
                  ZeroDivisionError [] Hok eq_refl)).
Defined.

(** ** What the steps return *)

Section StepFacts.
Context {world inputs labels tensor num : Type}.
Context `{PyNum num} `{Torch world tensor num}.
Implicit Types (self : KModule world inputs labels tensor)
         (w : world) (r : dict num).

Lemma obtain_metrics_inv self outputs lbls loss w r w' :
  obtain_metrics self outputs lbls loss w = Ok (r, w') ->
  loss_and_metrics self outputs lbls loss w r w'.
Proof.
  unfold obtain_metrics, loss_and_metrics.
  destruct (metrics self) as [mc|].
  - intros Hrun. invert_run Hrun. injection Hrun as <- <-.
    split; [apply dict_get_set_same|].
    exists a. split; [exact Hrun0|]. split.
    + intros k Hk. rewrite dict_get_set_other by congruence.
      apply dict_get_map_values.
    + assert (Hkeys : keys (map (fun nv => (fst nv, item (snd nv))) a) = keys a)
        by (unfold keys; now rewrite map_map).
      destruct (in_dec string_dec "Loss"%string (keys a)) as [Hin|Hout].
      * rewrite keys_dict_set_present; [exact Hkeys | now rewrite Hkeys].
      * rewrite keys_dict_set_absent; [now rewrite Hkeys | now rewrite Hkeys].
  - intros [= <- <-]. repeat split.
Qed.

(** X7. A result of [validation_step] holds under ["Loss"] the loss of the
    batch, also when the metric collection reports a metric of that name
    (its value is overwritten, in place); the other names are those of the
    collection, in its order, each with the item of its tensor, and
    ["Loss"] comes last when the collection does not have it.  A result of
    [train_step] is made the same way, from the loss computed before the
    optimizer step and the metrics computed after it. *)
Theorem step_result_loss self inp lbls w r w' :
  (validation_step self (inp, lbls) w = Ok (r, w') ->
   exists outputs w1 loss w2,
     forward self inp w = Ok (outputs, w1) /\
     call_loss_fn self outputs lbls w1 = Ok (loss, w2) /\
     loss_and_metrics self outputs lbls loss w2 r w') /\
  (train_step self (inp, lbls) w = Ok (r, w') ->
   exists o w0 outputs w1 loss w2 w3 w4,
     optimizer self = Some o /\
     zero_grad o w = Ok (tt, w0) /\
     forward self inp w0 = Ok (outputs, w1) /\
     call_loss_fn self outputs lbls w1 = Ok (loss, w2) /\
     backward loss w2 = Ok (tt, w3) /\
     step o w3 = Ok (tt, w4) /\
     loss_and_metrics self outputs lbls loss w4 r w').
Proof.
  split.
  - unfold validation_step. intros Hrun. invert_run Hrun.
    eexists _, _, _, _. split; [eassumption|]. split; [eassumption|].
    now apply obtain_metrics_inv.
  - unfold train_step, optimizer_attr. intros Hrun.
    destruct (optimizer self) as [o|] eqn:Ho.
    + invert_run Hrun. injection Hrun0 as <- <-. injection Hrun5 as <- <-.
      repeat match goal with u : unit |- _ => destruct u end.
      eexists _, _, _, _, _, _, _, _.
      do 6 (split; [first [reflexivity | eassumption]|]).
      now apply obtain_metrics_inv.
    + apply bind_inv in Hrun. destruct Hrun as (? & ? & [=] & _).
Qed.
End StepFacts.

Lemma step_result_loss_witness :
  let r : dict float := [("Loss"%string, 2%float); ("Accuracy"%string, 1%float)] in
  validation_step Toy.model (2%float, ["Loss"%string; "Accuracy"%string]) 0%nat
  = Ok (r, 0%nat) /\
  exists loss : float, dict_get "Loss" r = Some (item loss).
Proof.
  intros r.
  assert (Hrun : validation_step Toy.model
                   (2%float, ["Loss"%string; "Accuracy"%string]) 0%nat
                 = Ok (r, 0%nat)) by reflexivity.
  split; [exact Hrun|].
  destruct (proj1 (step_result_loss (num := float) Toy.model 2%float
                     ["Loss"%string; "Accuracy"%string] 0%nat r 0%nat)
                  Hrun)
    as (outputs & w1 & loss & w2 & _ & _ & Hl & _).
  exists loss. exact Hl.
Defined.

(** ** Loops and their invariants *)

Section LoopInvariants.
Context {world : Type}.

Lemma bind_raise_inv {A B : Type} (c : M world A) (k : A -> M world B) w e :
  bind c k w = Raise e ->
  c w = Raise e \/ exists a w1, c w = Ok (a, w1) /\ k a w1 = Raise e.
Proof.
  unfold bind. destruct (c w) as [[a w1]|x] eqn:E; intros Hk.
  - right. exists a, w1. now split.
  - left. now injection Hk as ->.
Qed.

Lemma for_in_app {A S : Type} (xs ys : list A) (body : S -> A -> M world S) :
  forall s w,
    for_in (xs ++ ys) body s w = bind (for_in xs body s) (for_in ys body) w.
Proof.
  induction xs as [|x xs IH]; intros s w; simpl; [reflexivity|].
  unfold bind. destruct (body s x w) as [[s1 w1]|e]; [|reflexivity].
  rewrite IH. reflexivity.
Qed.

(** what every turn keeps holds after a returning loop *)
Lemma for_in_invariant {A S : Type} (body : S -> A -> M world S)
      (I : S -> Prop) (l : list A) :
  (forall s x w s1 w1,
      In x l -> I s -> body s x w = Ok (s1, w1) -> I s1) ->
  forall s w s' w', I s -> for_in l body s w = Ok (s', w') -> I s'.
Proof.
  induction l as [|x l IH]; intros Hkeep s w s' w' Hs Hrun; simpl in Hrun.
  - now injection Hrun as <- _.
  - apply bind_inv in Hrun. destruct Hrun as (s1 & w1 & Hx & Hrun).
    apply (IH (fun s0 y w0 s2 w2 Hy => Hkeep s0 y w0 s2 w2 (or_intror Hy))
              s1 w1 s' w'); [|exact Hrun].
    apply (Hkeep s x w s1 w1); [now left | exact Hs | exact Hx].
Qed.

(** a loop raises what one of its turns raises *)
Lemma for_in_raises {A S : Type} (body : S -> A -> M world S)
      (I : S -> Prop) (l : list A) :
  (forall s x w s1 w1,
      In x l -> I s -> body s x w = Ok (s1, w1) -> I s1) ->
  forall s w e,
    I s -> for_in l body s w = Raise e ->
    exists s0 x w0, In x l /\ I s0 /\ body s0 x w0 = Raise e.
Proof.
  induction l as [|x l IH]; intros Hkeep s w e Hs Hrun; simpl in Hrun.
  - discriminate.
  - apply bind_raise_inv in Hrun.
    destruct Hrun as [Hx|(s1 & w1 & Hx & Hrun)].
    + exists s, x, w. repeat split; [now left | exact Hs | exact Hx].
    + destruct (IH (fun s0 y w0 s2 w2 Hy => Hkeep s0 y w0 s2 w2 (or_intror Hy))
                   s1 w1 e) as (s0 & y & w0 & Hy & Hs0 & Hraise);
        [| exact Hrun |].
      * apply (Hkeep s x w s1 w1); [now left | exact Hs | exact Hx].
      * exists s0, y, w0. repeat split; [now right | exact Hs0 | exact Hraise].
Qed.
End LoopInvariants.

(** ** The histories that [fit] builds *)

Section FitInvariants.
Context {world inputs labels tensor num : Type}.
Context `{PyNum num} `{Torch world tensor num}.
Implicit Types (self : KModule world inputs labels tensor)
         (tl : list (inputs * labels))
         (vlo : option (list (inputs * labels)))
         (w : world) (h hb he : History num) (key : string).

Lemma history_ok_nil self tl vlo : history_ok self tl vlo [].
Proof. repeat split; [constructor | constructor | intros key []]. Qed.

Lemma history_ok_log_dict self tl vlo h (r : dict num) prefix :
  history_ok self tl vlo h ->
  (forall name, In name (keys r) ->
                batch_key self tl vlo (String.append prefix name)) ->
  history_ok self tl vlo (log_dict h r prefix).
Proof.
  intros (Hnd & Hne & Hk) Hr. repeat split.
  - now apply NoDup_keys_log_dict.
  - now apply no_empty_series_log_dict.
  - intros key Hin. apply in_keys_log_dict in Hin.
    destruct Hin as [Hin|Hin]; [now apply Hk|].
    apply in_map_iff in Hin. destruct Hin as (name & <- & Hname).
    now apply Hr.
Qed.

Lemma fit_train_batches_ok self tl vlo w hb w' :
  fit_train_batches self tl w = Ok (hb, w') -> history_ok self tl vlo hb.
Proof.
  unfold fit_train_batches. intros Hrun. invert_run Hrun.
  eapply for_in_invariant with (I := history_ok self tl vlo);
    [| apply history_ok_nil | exact Hrun].
  intros s b wa s1 wb Hb Hs Hbody. cbv beta in Hbody. invert_run Hbody.
  injection Hbody as <- _. apply history_ok_log_dict; [exact Hs|].
  intros name Hname. left. exists a0. split; [|exact Hname].
  exists b, wa, w1. now split.
Qed.

Lemma fit_validation_batches_ok self tl vlo hb0 w hb w' :
  fit_validation_batches self vlo hb0 w = Ok (hb, w') ->
  history_ok self tl vlo hb0 -> history_ok self tl vlo hb.
Proof.
  unfold fit_validation_batches. destruct vlo as [vl|].
  - intros Hrun Hok. invert_run Hrun.
    eapply for_in_invariant with (I := history_ok self tl (Some vl));
      [| exact Hok | exact Hrun].
    intros s b wa s1 wb Hb Hs Hbody. cbv beta in Hbody. invert_run Hbody.
    injection Hbody as <- _. apply history_ok_log_dict; [exact Hs|].
    intros name Hname. right. exists vl, a1, name.
    repeat split; [|exact Hname]. exists b, w1, w2. now split.
  - now intros [= <- _].
Qed.

(** one returning epoch logs one mapping with distinct keys, all of them
    batch keys *)
Lemma fit_epoch_ok self tl vlo he e w he' w' :
  fit_epoch self tl vlo he e w = Ok (he', w') ->
  exists agg : dict num,
    he' = log_dict he agg "" /\ NoDup (keys agg) /\
    forall key, In key (keys agg) -> batch_key self tl vlo key.
Proof.
  unfold fit_epoch. intros Hrun. invert_run Hrun. injection Hrun as <- _.
  apply lift_inv in Hrun3. destruct Hrun3 as [Hagg _]. simpl in Hagg.
  apply keys_dict_comp in Hagg.
  apply fit_train_batches_ok with (vlo := vlo) in Hrun0.
  apply fit_validation_batches_ok with (tl := tl) in Hrun1; [|exact Hrun0].
  destruct Hrun1 as (Hnd & _ & Hk).
  exists a2. rewrite Hagg. auto.
Qed.

Lemma fit_epochs_ok self tl vlo (es : list nat) : forall he w h w',
  for_in es (fit_epoch self tl vlo) he w = Ok (h, w') ->
  (history_ok self tl vlo he -> history_ok self tl vlo h) /\
  forall key,
    exists l, series key h = series key he ++ l /\
              List.length l <= List.length es.
Proof.
  induction es as [|e es IH]; intros he w h w' Hrun; simpl in Hrun.
  - injection Hrun as <- _. split; [auto|].
    intros key. exists []. now rewrite app_nil_r.
  - apply bind_inv in Hrun. destruct Hrun as (he1 & w1 & He & Hrun).
    destruct (fit_epoch_ok _ _ _ _ _ _ _ _ He) as (agg & -> & Hnd & Hk).
    destruct (IH _ _ _ _ Hrun) as [Hok Hser]. split.
    + intros Hhe. apply Hok. apply history_ok_log_dict; [exact Hhe|].
      intros name Hname. now apply Hk.
    + intros key. destruct (Hser key) as (l & Hl & Hlen).
      exists (logged key "" agg ++ l). split.
      * now rewrite Hl, series_log_dict, app_assoc.
      * rewrite length_app.
        pose proof (length_series_log_dict_NoDup (num := num) key agg he Hnd)
          as Hone.
        rewrite series_log_dict, length_app in Hone. simpl.
        destruct (in_dec string_dec key (keys agg)); lia.
Qed.

(** X8. A history returned by [fit] has no empty series, and no series
    longer than the number of epochs: every epoch adds at most one sample
    to a key. *)
Theorem fit_history_shape self tl vlo epochs w h w' :
  fit self tl epochs vlo w = Ok (h, w') ->
  no_empty_series h /\
  NoDup (keys h) /\
  forall key, List.length (series key h) <= Z.to_nat epochs.
Proof.
  unfold fit. intros Hrun.
  destruct (fit_epochs_ok self tl vlo _ _ _ _ _ Hrun) as [Hok Hser].
  destruct (Hok (history_ok_nil self tl vlo)) as (Hnd & Hne & _).
  repeat split; [exact Hne | exact Hnd |].
  intros key. destruct (Hser key) as (l & -> & Hlen).
  unfold range in Hlen. rewrite length_seq in Hlen. exact Hlen.
Qed.

(** X9. Every key of a history returned by [fit] is a name of some
    training step result, or ["Val_"] followed by a name of some validation
    step result; without validation source only the former. *)
Theorem fit_history_keys self tl vlo epochs w h w' :
  fit self tl epochs vlo w = Ok (h, w') ->
  forall key,
    In key (keys h) ->
    batch_key self tl vlo key /\
    (vlo = None -> exists r, train_result self tl r /\ In key (keys r)).
Proof.
  unfold fit. intros Hrun key Hin.
  destruct (fit_epochs_ok self tl vlo _ _ _ _ _ Hrun) as [Hok _].
  destruct (Hok (history_ok_nil self tl vlo)) as (_ & _ & Hk).
  split; [now apply Hk|].
  intros ->. destruct (Hk key Hin) as [Ht|(vl & r & name & [=] & _)].
  exact Ht.
Qed.
End FitInvariants.

Lemma fit_history_shape_witness :
  let h : History float :=
    [("Loss"%string, [2%float; 2%float]); ("Val_Loss"%string, [5%float; 5%float])] in
  fit Toy.model [Toy.b 1%float; Toy.b 3%float] 2 (Some [Toy.b 5%float]) 0%nat
  = Ok (h, 4%nat) /\
  forall key, List.length (series key h) <= Z.to_nat 2.
Proof.
  intros h.
  assert (Hrun : fit Toy.model [Toy.b 1%float; Toy.b 3%float] 2
                     (Some [Toy.b 5%float]) 0%nat = Ok (h, 4%nat))
    by reflexivity.
  split; [exact Hrun|].
  exact (proj2 (proj2 (fit_history_shape Toy.model _ _ 2 0%nat h 4%nat Hrun))).
Defined.

Lemma fit_history_keys_witness :
  let h : History float := [("Loss"%string, [2%float; 2%float])] in
  fit Toy.model [Toy.b 1%float; Toy.b 3%float] 2 None 0%nat = Ok (h, 4%nat) /\
  In "Loss"%string (keys h) /\
  exists r, train_result Toy.model [Toy.b 1%float; Toy.b 3%float] r /\
            In "Loss"%string (keys r).
Proof.
  intros h.
  assert (Hrun : fit Toy.model [Toy.b 1%float; Toy.b 3%float] 2 None 0%nat
                 = Ok (h, 4%nat)) by reflexivity.
  assert (Hin : In "Loss"%string (keys h)) by (now left).
  split; [exact Hrun|]. split; [exact Hin|].
  exact (proj2 (fit_history_keys Toy.model _ None 2 0%nat h 4%nat Hrun
                  "Loss"%string Hin) eq_refl).
Defined.

(** ** The exceptions of [fit] *)

(** Splits every returning chain of binds among the hypotheses. *)
Ltac invert_runs :=
  repeat match goal with
         | Hx : bind _ _ _ = Ok _ |- _ =>
             let a := fresh "a" in
             let w := fresh "w" in
             let H1 := fresh "Hrun" in
             apply bind_inv in Hx; destruct Hx as (a & w & H1 & Hx);
             cbv beta in H1, Hx
         end.

Section FitErrors.
Context {world inputs labels tensor num : Type}.
Context `{PyNum num} `{Torch world tensor num}.
Implicit Types (self : KModule world inputs labels tensor)
         (tl : list (inputs * labels))
         (vlo : option (list (inputs * labels)))
         (w : world) (h hb he : History num).

Lemma fit_train_batches_raises self tl w e :
  fit_train_batches (num := num) self tl w = Raise e ->
  exists b w0, In b tl /\ train_step (num := num) self b w0 = Raise e.
Proof.
  unfold fit_train_batches. intros Hrun.
  apply bind_raise_inv in Hrun.
  destruct Hrun as [Hrun|(u & w1 & _ & Hrun)]; [discriminate|].
  apply for_in_raises with (I := fun _ => True) in Hrun; [|auto|exact I].
  destruct Hrun as (s0 & b & w0 & Hb & _ & Hbody). cbv beta in Hbody.
  apply bind_raise_inv in Hbody.
  destruct Hbody as [Hstep|(r & w2 & _ & Hret)]; [eauto | discriminate].
Qed.

Lemma fit_validation_batches_raises self vlo hb w e :
  fit_validation_batches self vlo hb w = Raise e ->
  exists vl b w0,
    vlo = Some vl /\ In b vl /\
    validation_step (num := num) self b w0 = Raise e.
Proof.
  unfold fit_validation_batches. destruct vlo as [vl|]; [|discriminate].
  intros Hrun. apply bind_raise_inv in Hrun.
  destruct Hrun as [Hrun|(u & w1 & _ & Hrun)]; [discriminate|].
  apply for_in_raises with (I := fun _ => True) in Hrun; [|auto|exact I].
  destruct Hrun as (s0 & b & w0 & Hb & _ & Hbody). cbv beta in Hbody.
  apply bind_raise_inv in Hbody.
  destruct Hbody as [Hc|(u1 & w2 & _ & Hbody)]; [discriminate|].
  apply bind_raise_inv in Hbody.
  destruct Hbody as [Hstep|(r & w3 & _ & Hbody)]; [eauto 7|].
  apply bind_raise_inv in Hbody.
  destruct Hbody as [Hc|(u2 & w4 & _ & Hret)]; discriminate.
Qed.

Lemma fit_epoch_raises self tl vlo he e0 w e :
  fit_epoch self tl vlo he e0 w = Raise e -> fit_error_source self tl vlo e.
Proof.
  unfold fit_epoch, fit_error_source. intros Hrun.
  apply bind_raise_inv in Hrun.
  destruct Hrun as [Ht|(hb & w1 & Ht & Hrun)].
  { left. eapply fit_train_batches_raises. exact Ht. }
  apply bind_raise_inv in Hrun.
  destruct Hrun as [Hv|(hb' & w2 & Hv & Hrun)].
  { right. left. eapply fit_validation_batches_raises. exact Hv. }
  apply bind_raise_inv in Hrun.
  destruct Hrun as [Hr|(u & w3 & Hr & Hrun)].
  { right. right. unfold metrics_reset in Hr.
    destruct (metrics self) as [mc|].
    - left. eauto.
    - right. injection Hr as <-. now split. }
  apply bind_raise_inv in Hrun.
  destruct Hrun as [Hagg|(agg & w4 & _ & Hret)]; [|discriminate].
  apply fit_train_batches_ok with (vlo := vlo) in Ht.
  apply fit_validation_batches_ok with (tl := tl) in Hv; [|exact Ht].
  destruct Hv as (_ & Hne & _).
  unfold lift, aggregate in Hagg. simpl in Hagg.
  rewrite (dict_comp_mean_nonempty _ Hne) in Hagg. discriminate.
Qed.

Lemma fit_raises self tl vlo epochs w e :
  fit self tl epochs vlo w = Raise e -> fit_error_source self tl vlo e.
Proof.
  unfold fit. intros Hrun.
  apply for_in_raises with (I := fun _ => True) in Hrun; [|auto|exact I].
  destruct Hrun as (he & e0 & w0 & _ & _ & Hepoch).
  now apply fit_epoch_raises in Hepoch.
Qed.

(** a loop over a data source does what the loop over its batches does,
    unless the data source raises *)
Lemma over_source_cases {S : Type} (source : DataSource inputs labels)
      (loop : list (inputs * labels) -> M world S) w :
  over_source source loop w = loop (source_batches source) w \/
  exists e, data_source_error source e /\
            over_source source loop w = Raise e.
Proof.
  unfold over_source, data_source_error.
  destruct source as [it ln bs ne]. cbn [source_iter source_len
                                          source_batches source_next_error].
  destruct it as [[]|e]; [|right; exists e; split; [now left | reflexivity]].
  destruct ln as [n|e];
    [|right; exists e; split; [right; now left | reflexivity]].
  unfold bind, lift, raise, ret.
  destruct (loop bs w) as [[s w1]|e]; [|now left].
  destruct ne as [e|]; [|now left].
  right. exists e. split; [right; now right | reflexivity].
Qed.

Lemma not_data_source_error_sized (bs : list (inputs * labels)) e :
  ~ data_source_error (sized bs) e.
Proof. intros [Hx|[Hx|Hx]]; discriminate Hx. Qed.

Lemma fit_train_batches_source_cases self
      (trainloader : DataSource inputs labels) w :
  fit_train_batches_source (num := num) self trainloader w
  = fit_train_batches self (source_batches trainloader) w \/
  exists e, data_source_error trainloader e /\
            fit_train_batches_source (num := num) self trainloader w
            = Raise e.
Proof.
  unfold fit_train_batches_source, fit_train_batches.
  rewrite !bind_eq. unfold call. cbv beta iota.
  apply over_source_cases.
Qed.

Lemma fit_validation_batches_source_cases self
      (validationloader : option (DataSource inputs labels)) hb w :
  fit_validation_batches_source self validationloader hb w
  = fit_validation_batches self (option_map source_batches validationloader)
                           hb w \/
  exists e vl, validationloader = Some vl /\ data_source_error vl e /\
               fit_validation_batches_source self validationloader hb w
               = Raise e.
Proof.
  unfold fit_validation_batches_source, fit_validation_batches.
  destruct validationloader as [vl|]; [|now left]. cbn [option_map].
  rewrite !bind_eq. unfold call. cbv beta iota.
  match goal with
  | |- over_source vl ?loop ?w0 = _ \/ _ =>
      destruct (over_source_cases vl loop w0) as [Heq|(e & Hsrc & Hraise)]
  end.
  - left. exact Heq.
  - right. exists e, vl. now repeat split.
Qed.

Lemma fit_epoch_sources_cases self (trainloader : DataSource inputs labels)
      (validationloader : option (DataSource inputs labels)) he epoch w :
  fit_epoch_sources self trainloader validationloader he epoch w
  = fit_epoch self (source_batches trainloader)
              (option_map source_batches validationloader) he epoch w \/
  exists e,
    (data_source_error trainloader e \/
     exists vl, validationloader = Some vl /\ data_source_error vl e) /\
    fit_epoch_sources self trainloader validationloader he epoch w = Raise e.
Proof.
  unfold fit_epoch_sources, fit_epoch. rewrite !bind_eq.
  destruct (fit_train_batches_source_cases self trainloader w)
    as [-> | (e & Hsrc & ->)];
    [|right; exists e; split; [now left | reflexivity]].
  destruct (fit_train_batches self (source_batches trainloader) w)
    as [[hb w1]|e]; [|now left].
  rewrite !bind_eq.
  destruct (fit_validation_batches_source_cases self validationloader hb w1)
    as [-> | (e & vl & Hvl & Hsrc & ->)]; [now left|].
  right. exists e. split; [right; now exists vl | reflexivity].
Qed.

Lemma fit_epoch_sources_sized self tl vlo he epoch w :
  fit_epoch_sources self (sized tl) (option_map sized vlo) he epoch w
  = fit_epoch self tl vlo he epoch w.
Proof.
  destruct (fit_epoch_sources_cases self (sized tl) (option_map sized vlo)
                                    he epoch w)
    as [Heq | (e & [Hsrc|(vl & Hvl & Hsrc)] & _)].
  - rewrite Heq. now destruct vlo.
  - now apply not_data_source_error_sized in Hsrc.
  - destruct vlo as [bs|]; [|discriminate]. injection Hvl as <-.
    now apply not_data_source_error_sized in Hsrc.
Qed.

(** X10. An exception that escapes [fit] was raised by one of the data
    sources ([iter], [len] or [next] of the training source or of the
    validation source), by a training step, by a validation step, by
    [reset], or is the [AttributeError] of [self.metrics.reset()] on a
    model without metrics: the bookkeeping of [fit] itself (logging, and
    the mean of the batch history) never raises.  On sized sequences of
    batches, whose [iter], [len] and [next] raise nothing, [fit] is what it
    is on the lists of their batches. *)
Theorem fit_error_sources self (trainloader : DataSource inputs labels)
        epochs (validationloader : option (DataSource inputs labels)) w :
  (forall e,
      fit_sources self trainloader epochs validationloader w = Raise e ->
      fit_sources_error_source self trainloader validationloader e) /\
  (forall tl vlo,
      fit_sources self (sized tl) epochs (option_map sized vlo) w
      = fit self tl epochs vlo w).
Proof.
  split.
  - unfold fit_sources. intros e Hrun.
    apply for_in_raises with (I := fun _ => True) in Hrun; [|auto|exact I].
    destruct Hrun as (he & e0 & w0 & _ & _ & Hepoch).
    unfold fit_sources_error_source.
    destruct (fit_epoch_sources_cases self trainloader validationloader
                                      he e0 w0)
      as [Heq | (e' & Hsrc & Hraise)].
    + left. rewrite Heq in Hepoch. now apply fit_epoch_raises in Hepoch.
    + right. rewrite Hraise in Hepoch. injection Hepoch as <-. exact Hsrc.
  - intros tl vlo. unfold fit_sources, fit.
    apply for_in_ext. intros he epoch w0. apply fit_epoch_sources_sized.
Qed.

(** X11. On a model whose optimizer is [None], [fit] with at least one
    epoch and at least one training batch raises the [AttributeError] of
    [self.optimizer.zero_grad()] in its first training step, whatever else
    is configured. *)
Theorem fit_without_optimizer self b tl vlo epochs w :
  optimizer self = None ->
  (1 <= epochs)%Z ->
  train_step (num := num) self b (nn_train self w)
  = Raise (AttributeError "zero_grad") /\
  fit (num := num) self (b :: tl) epochs vlo w
  = Raise (AttributeError "zero_grad").
Proof.
  intros Ho He.
  assert (Hstep : forall w0, train_step (num := num) self b w0
                             = Raise (AttributeError "zero_grad")).
  { intros w0. destruct b as [inp lbls].
    unfold train_step, optimizer_attr, bind. now rewrite Ho. }
  split; [apply Hstep|].
  unfold fit. rewrite (range_pos _ He). simpl.
  unfold bind at 1. unfold fit_epoch. unfold bind at 1.
  unfold fit_train_batches. unfold bind at 1. unfold call at 1. simpl.
  unfold bind at 1. unfold bind at 1. now rewrite Hstep.
Qed.

(** X12. On a model whose loss is [None] no step returns: after the
    forward pass the call [self.loss_fn(outputs, labels)] raises
    [TypeError], so [evaluate] returns on no non-empty source, and [fit]
    returns on no non-empty training source when at least one epoch is
    asked for. *)
Theorem steps_without_loss self b bs vlo epochs w :
  loss_fn self = None ->
  (forall w0 outputs w1,
      forward self (fst b) w0 = Ok (outputs, w1) ->
      validation_step (num := num) self b w0
      = Raise (TypeError "'NoneType' object is not callable")) /\
  (forall r, evaluate (num := num) self (b :: bs) w <> Ok r) /\
  ((1 <= epochs)%Z ->
   forall r, fit (num := num) self (b :: bs) epochs vlo w <> Ok r).
Proof.
  intros Hl.
  assert (Hv : forall w0 r w1, validation_step (num := num) self b w0 <> Ok (r, w1)).
  { intros w0 r w1 Hrun. destruct b as [inp lbls]. unfold validation_step in Hrun.
    invert_run Hrun. unfold call_loss_fn in Hrun1. rewrite Hl in Hrun1.
    discriminate. }
  assert (Ht : forall w0 r w1, train_step (num := num) self b w0 <> Ok (r, w1)).
  { intros w0 r w1 Hrun. destruct b as [inp lbls]. unfold train_step in Hrun.
    invert_run Hrun. unfold call_loss_fn in Hrun3. rewrite Hl in Hrun3.
    discriminate. }
  repeat split.
  - intros w0 outputs w1 Hf. destruct b as [inp lbls]. simpl in Hf.
    unfold validation_step, bind. rewrite Hf. unfold call_loss_fn.
    now rewrite Hl.
  - intros [r w1] Hrun. unfold evaluate, enumerate in Hrun. simpl in Hrun.
    invert_runs.
    match goal with
    | Hx : validation_step self b _ = Ok _ |- _ => now apply Hv in Hx
    end.
  - intros He [r w1] Hrun. unfold fit in Hrun. rewrite (range_pos _ He) in Hrun.
    simpl in Hrun. unfold fit_epoch, fit_train_batches in Hrun.
    invert_runs. simpl in *. invert_runs.
    match goal with
    | Hx : train_step self b _ = Ok _ |- _ => now apply Ht in Hx
    end.
Qed.
End FitErrors.

Lemma fit_error_sources_witness :
  let unsized : DataSource float (list string) :=
    {| source_iter := Ok tt;
       source_len := Raise (TypeError "object has no len()");
       source_batches := [Toy.b 1%float];
       source_next_error := None |} in
  fit_sources (num := float) Toy.model unsized 1 None 0%nat
  = Raise (TypeError "object has no len()") /\
  fit_sources_error_source (num := float) Toy.model unsized None
                           (TypeError "object has no len()").
Proof.
  intros unsized.
  assert (Hrun : fit_sources (num := float) Toy.model unsized 1 None 0%nat
                 = Raise (TypeError "object has no len()")) by reflexivity.
  split; [exact Hrun|].
  exact (proj1 (fit_error_sources (num := float) Toy.model unsized 1 None
                  0%nat)
               (TypeError "object has no len()") Hrun).
Defined.

Lemma fit_without_optimizer_witness :
  optimizer Toy.net = None /\
  (1 <= 2)%Z /\
  fit (num := float) Toy.net [Toy.b 1%float; Toy.b 2%float] 2 None 0%nat
  = Raise (AttributeError "zero_grad").
Proof.
  split; [reflexivity|]. split; [lia|].
  refine (proj2 (fit_without_optimizer (num := float) Toy.net (Toy.b 1%float)
                   [Toy.b 2%float] None 2 0%nat eq_refl _)).
  lia.
Defined.

Lemma steps_without_loss_witness :
  let m : Toy.KM := compile Toy.net None (Some Toy.sgd) (Some Toy.collection) in
  loss_fn m = None /\
  validation_step (num := float) m (Toy.b 1%float) 0%nat
  = Raise (TypeError "'NoneType' object is not callable").
Proof.
  intros m. split; [reflexivity|].
  exact (proj1 (steps_without_loss (num := float) m (Toy.b 1%float) [] None 1
                  0%nat eq_refl) 0%nat 1%float 0%nat eq_refl).
Defined.

(** ** The number of epochs *)

Section EpochFacts.
Context {world inputs labels tensor num : Type}.
Context `{PyNum num} `{Torch world tensor num}.
Implicit Types (self : KModule world inputs labels tensor)
         (tl : list (inputs * labels))
         (vlo : option (list (inputs * labels)))
         (w : world) (h he : History num).

(** X13. With a negative number of epochs [range(epochs)] is empty as it
    is for zero: [fit] returns the empty history without running anything
    and without raising. *)
Theorem fit_negative_epochs self tl vlo epochs w :
  (epochs <= 0)%Z -> fit (num := num) self tl epochs vlo w = Ok ([], w).
Proof.
  intros He. unfold fit, range.
  replace (Z.to_nat epochs) with 0 by lia. reflexivity.
Qed.

(** the body of the loop does not look at the number of the epoch *)
Lemma for_in_fit_epoch_shift self tl vlo (n : nat) : forall a b he w,
  for_in (seq a n) (fit_epoch self tl vlo) he w
  = for_in (seq b n) (fit_epoch self tl vlo) he w.
Proof.
  induction n as [|n IH]; intros a b he w; simpl; [reflexivity|].
  unfold bind.
  change (fit_epoch self tl vlo he a w) with (fit_epoch self tl vlo he b w).
  destruct (fit_epoch self tl vlo he b w) as [[he1 w1]|e]; [|reflexivity].
  apply IH.
Qed.

(** X14. Asking for more epochs continues the same run: when [fit]
    returns after [e1] epochs, [fit] with [e1 + e2] epochs from the same
    state is [e2] further epochs on the returned history and state, so the
    series it returns begin with the series of the shorter run and have at
    most [e2] samples more. *)
Theorem fit_more_epochs self tl vlo e1 e2 w h1 w1 :
  (0 <= e1)%Z ->
  (0 <= e2)%Z ->
  fit self tl e1 vlo w = Ok (h1, w1) ->
  fit self tl (e1 + e2) vlo w
  = for_in (range e2) (fit_epoch self tl vlo) h1 w1 /\
  forall h2 w2,
    fit self tl (e1 + e2) vlo w = Ok (h2, w2) ->
    forall key,
      exists l, series key h2 = series key h1 ++ l /\
                List.length l <= Z.to_nat e2.
Proof.
  intros H1 H2 Hrun.
  assert (Hfit : fit self tl (e1 + e2) vlo w
                 = for_in (range e2) (fit_epoch self tl vlo) h1 w1).
  { unfold fit, range in *.
    rewrite Z2Nat.inj_add by assumption. rewrite seq_app, for_in_app.
    unfold bind. rewrite Hrun. apply for_in_fit_epoch_shift. }
  split; [exact Hfit|].
  intros h2 w2 Hrun2 key. rewrite Hfit in Hrun2.
  destruct (fit_epochs_ok self tl vlo _ _ _ _ _ Hrun2) as [_ Hser].
  destruct (Hser key) as (l & Hl & Hlen).
  exists l. split; [exact Hl|].
  unfold range in Hlen. now rewrite length_seq in Hlen.
Qed.
End EpochFacts.

Lemma fit_negative_epochs_witness :
  (-3 <= 0)%Z /\
  fit (num := float) Toy.model_plain [Toy.b 1%float] (-3) None 0%nat
  = Ok ([], 0%nat).
Proof.
  split; [lia|].
  apply (fit_negative_epochs (num := float) Toy.model_plain [Toy.b 1%float]
           None (-3) 0%nat).
  lia.
Defined.

Lemma fit_more_epochs_witness :
  let tl := [Toy.b 1%float; Toy.b 3%float] in
  let h1 : History float := [("Loss"%string, [2%float])] in
  (0 <= 1)%Z /\ (0 <= 2)%Z /\
  fit Toy.model tl 1 None 0%nat = Ok (h1, 2%nat) /\
  fit Toy.model tl (1 + 2) None 0%nat
  = for_in (range 2) (fit_epoch Toy.model tl None) h1 2%nat.
Proof.
  intros tl h1.
  assert (Hrun : fit Toy.model tl 1 None 0%nat = Ok (h1, 2%nat)) by reflexivity.
  split; [lia|]. split; [lia|]. split; [exact Hrun|].
  refine (proj1 (fit_more_epochs (num := float) Toy.model tl None 1 2 0%nat
                   h1 2%nat _ _ Hrun)); lia.
Defined.

(** ** The accumulator of [evaluate] *)

Section EvaluateInvariants.
Context {world inputs labels tensor num : Type}.
Context `{PyNum num} `{Torch world tensor num}.
Implicit Types (self : KModule world inputs labels tensor)
         (bs : list (inputs * labels)) (w : world)
         (r : dict num) (results : option (dict (list num))).

Lemma results_ok_singletons (r0 : dict num) : results_ok r0 (Some (singletons r0)).
Proof.
  split; [apply keys_singletons|].
  unfold singletons, no_empty_series. apply Forall_forall.
  intros kv Hin. apply in_map_iff in Hin. destruct Hin as (nv & <- & _).
  discriminate.
Qed.

Lemma evaluate_append_keeps (r0 : dict num) results nv w results1 w1 :
  results_ok r0 results ->
  evaluate_append results nv w = Ok (results1, w1) ->
  results_ok r0 results1.
Proof.
  destruct results as [res|]; [|intros []]. intros [Hk Hne].
  destruct nv as [name value]. unfold evaluate_append.
  destruct (dict_get name res) as [values|] eqn:Hget; [|discriminate].
  intros [= <- _]. split.
  - rewrite keys_dict_set_present; [exact Hk|].
    apply dict_get_Some_keys. eauto.
  - apply no_empty_series_dict_set; [now destruct values | exact Hne].
Qed.

Lemma evaluate_append_raises (r0 : dict num) results name (value : num) w e :
  results_ok r0 results ->
  evaluate_append (world := world) results (name, value) w = Raise e ->
  ~ In name (keys r0) /\ e = KeyError name.
Proof.
  destruct results as [res|]; [|intros []]. intros [Hk Hne].
  unfold evaluate_append.
  destruct (dict_get name res) as [values|] eqn:Hget; [discriminate|].
  intros [= <-]. split; [|reflexivity].
  rewrite <- Hk. now apply dict_get_None_keys.
Qed.

Lemma in_combine_seq {A : Type} (i n : nat) (x : A) (l : list A) :
  In (i, x) (combine (seq (S n) (List.length l)) l) -> i <> 0 /\ In x l.
Proof.
  intros Hin. split.
  - apply in_combine_l in Hin. apply in_seq in Hin. lia.
  - now apply in_combine_r in Hin.
Qed.

Lemma evaluate_body_keeps self (r0 : dict num) results i b w results1 w1 :
  i <> 0 ->
  results_ok r0 results ->
  evaluate_body self results (i, b) w = Ok (results1, w1) ->
  results_ok r0 results1.
Proof.
  intros Hi Hok. unfold evaluate_body.
  destruct (Nat.eqb_spec i 0) as [->|_]; [congruence|].
  intros Hrun. invert_run Hrun.
  eapply for_in_invariant with (I := results_ok r0); [| exact Hok | exact Hrun].
  intros s nv wa s1 wb _ Hs Happ. now apply evaluate_append_keeps with (1 := Hs) in Happ.
Qed.

Lemma evaluate_body_raises self (r0 : dict num) results i b w e :
  i <> 0 ->
  results_ok r0 results ->
  evaluate_body self results (i, b) w = Raise e ->
  validation_step (num := num) self b w = Raise e \/
  exists r w1 name,
    validation_step self b w = Ok (r, w1) /\
    In name (keys r) /\ ~ In name (keys r0) /\ e = KeyError name.
Proof.
  intros Hi Hok. unfold evaluate_body.
  destruct (Nat.eqb_spec i 0) as [->|_]; [congruence|].
  intros Hrun. apply bind_raise_inv in Hrun.
  destruct Hrun as [Hstep|(r & w1 & Hstep & Hrun)]; [now left|].
  right. apply for_in_raises with (I := results_ok r0) in Hrun.
  - destruct Hrun as (s0 & [name value] & w0 & Hin & Hs0 & Happ).
    destruct (evaluate_append_raises r0 s0 name value w0 e Hs0 Happ)
      as [Hout ->].
    exists r, w1, name. repeat split; [exact Hstep | | exact Hout].
    apply in_map_iff. now exists (name, value).
  - intros s nv wa s1 wb _ Hs Happ.
    now apply evaluate_append_keeps with (1 := Hs) in Happ.
  - exact Hok.
Qed.

(** the turns after the first keep the accumulator as the first left it *)
Lemma evaluate_rest_keeps self (r0 : dict num) bs n results w results1 w1 :
  results_ok r0 results ->
  for_in (combine (seq (S n) (List.length bs)) bs) (evaluate_body self)
         results w = Ok (results1, w1) ->
  results_ok r0 results1.
Proof.
  intros Hok Hrun.
  eapply for_in_invariant with (I := results_ok r0); [| exact Hok | exact Hrun].
  intros s [i b] wa s1 wb Hin Hs Hbody.
  apply in_combine_seq in Hin. destruct Hin as [Hi _].
  now apply evaluate_body_keeps with (1 := Hi) (2 := Hs) in Hbody.
Qed.

(** X15. When [evaluate] returns, the mapping has exactly the names of the
    step result of the first batch, in its order: names that only later
    batches would bring are never added, and names that later batches lack
    stay. *)
Theorem evaluate_keys_of_first_batch self bs w r w' :
  evaluate self bs w = Ok (r, w') ->
  exists b0 bs' r0 w1,
    bs = b0 :: bs' /\
    validation_step self b0 (nn_eval self w) = Ok (r0, w1) /\
    keys r = keys r0.
Proof.
  unfold evaluate. intros Hrun. invert_run Hrun.
  destruct bs as [|b0 bs']; [simpl in Hrun1; now injection Hrun1 as <- _|].
  unfold enumerate in Hrun1. simpl in Hrun1. invert_run Hrun1.
  cbv beta iota in Hrun2. simpl in Hrun2. invert_run Hrun2.
  injection Hrun2 as <- <-. injection Hrun0 as _ <-.
  fold (singletons a2) in Hrun1.
  apply evaluate_rest_keeps with (r0 := a2) in Hrun1;
    [|apply results_ok_singletons].
  destruct a0 as [res|]; [|destruct Hrun1]. destruct Hrun1 as [Hk _].
  apply lift_inv in Hrun. destruct Hrun as [Hcomp _].
  apply keys_dict_comp in Hcomp.
  exists b0, bs', a2, w3. repeat split; [exact Hrun3 | congruence].
Qed.

Lemma evaluate_raises self bs w e :
  evaluate self bs w = Raise e -> evaluate_error_source self bs w e.
Proof.
  unfold evaluate, evaluate_error_source. intros Hrun.
  destruct bs as [|b0 bs'].
  { left. split; [reflexivity|]. now injection Hrun as <-. }
  right.
  apply bind_raise_inv in Hrun.
  destruct Hrun as [Hc|(u & w0 & Hc & Hrun)]; [discriminate|].
  injection Hc as _ <-.
  apply bind_raise_inv in Hrun. unfold enumerate in Hrun. simpl in Hrun.
  destruct Hrun as [Hloop|(results & w2 & Hloop & Hfinal)].
  - apply bind_raise_inv in Hloop.
    destruct Hloop as [Hfirst|(results & w1 & Hfirst & Hrest)].
    + apply bind_raise_inv in Hfirst.
      destruct Hfirst as [Hstep|(r0 & w1 & _ & Hret)]; [|discriminate].
      left. exists b0, (nn_eval self w). split; [now left | exact Hstep].
    + apply bind_inv in Hfirst. destruct Hfirst as (r0 & w3 & Hstep & Hret).
      injection Hret as <- <-. fold (singletons r0) in Hrest.
      apply for_in_raises with (I := results_ok r0) in Hrest.
      * destruct Hrest as (s0 & [i b] & wa & Hin & Hs0 & Hbody).
        apply in_combine_seq in Hin. destruct Hin as [Hi Hb].
        destruct (evaluate_body_raises self r0 s0 i b wa e Hi Hs0 Hbody)
          as [Hraise|(r & wb & name & Hr & Hname & Hout & ->)].
        -- left. exists b, wa. split; [now right | exact Hraise].
        -- right. exists b0, bs', r0, w3, b, wa, r, wb, name.
           repeat split; assumption.
      * intros s [i b] wa s1 wb Hin Hs Hbody.
        apply in_combine_seq in Hin. destruct Hin as [Hi _].
        now apply evaluate_body_keeps with (1 := Hi) (2 := Hs) in Hbody.
      * apply results_ok_singletons.
  - exfalso.
    apply bind_inv in Hloop. destruct Hloop as (first & w1 & Hfirst & Hrest).
    apply bind_inv in Hfirst. destruct Hfirst as (r0 & w3 & Hstep & Hret).
    injection Hret as <- <-. fold (singletons r0) in Hrest.
    apply evaluate_rest_keeps with (r0 := r0) in Hrest;
      [|apply results_ok_singletons].
    destruct results as [res|]; [|destruct Hrest]. destruct Hrest as [_ Hne].
    unfold lift in Hfinal. rewrite (dict_comp_mean_nonempty _ Hne) in Hfinal.
    discriminate.
Qed.

Lemma evaluate_source_cases self (dataloader : DataSource inputs labels) w :
  evaluate_source self dataloader w
  = evaluate self (source_batches dataloader) w \/
  exists e, data_source_error dataloader e /\
            evaluate_source self dataloader w = Raise e.
Proof.
  unfold evaluate_source, evaluate. rewrite !bind_eq.
  unfold call. cbv beta iota. rewrite !bind_eq.
  match goal with
  | |- context [over_source dataloader ?loop ?w0] =>
      destruct (over_source_cases dataloader loop w0)
        as [-> | (e & Hsrc & ->)]
  end.
  - now left.
  - right. now exists e.
Qed.

(** X16. An exception that escapes [evaluate] was raised by the data
    source ([iter], [len] or [next]), or is the [UnboundLocalError] of a
    source that ends without a batch, an exception of a validation step, or
    the [KeyError] of a name that a later step result has and the first one
    had not: on a source with a batch the final means never raise.  On a
    sized sequence of batches, whose [iter], [len] and [next] raise
    nothing, [evaluate] is what it is on the list of its batches. *)
Theorem evaluate_error_sources self (dataloader : DataSource inputs labels)
        w :
  (forall e,
      evaluate_source self dataloader w = Raise e ->
      evaluate_source_error_source self dataloader w e) /\
  (forall bs, evaluate_source self (sized bs) w = evaluate self bs w).
Proof.
  split.
  - intros e Hrun. unfold evaluate_source_error_source.
    destruct (evaluate_source_cases self dataloader w)
      as [Heq | (e' & Hsrc & Hraise)].
    + left. rewrite Heq in Hrun. now apply evaluate_raises in Hrun.
    + right. rewrite Hraise in Hrun. injection Hrun as <-. exact Hsrc.
  - intros bs.
    destruct (evaluate_source_cases self (sized bs) w)
      as [Heq | (e & Hsrc & _)]; [exact Heq|].
    destruct Hsrc as [Hx|[Hx|Hx]]; discriminate Hx.
Qed.
End EvaluateInvariants.

Lemma evaluate_keys_of_first_batch_witness :
  let bs := [Toy.b_acc 2%float; Toy.b 4%float] in
  let r : dict float := [("Accuracy"%string, 1%float); ("Loss"%string, 3%float)] in
  evaluate Toy.model bs 0%nat = Ok (r, 0%nat) /\
  exists b0 bs' r0 w1,
    bs = b0 :: bs' /\
    validation_step Toy.model b0 0%nat = Ok (r0, w1) /\ keys r = keys r0.
Proof.
  intros bs r.
  assert (Hrun : evaluate Toy.model bs 0%nat = Ok (r, 0%nat)) by reflexivity.
  split; [exact Hrun|].
  exact (evaluate_keys_of_first_batch (num := float) Toy.model bs 0%nat r 0%nat
           Hrun).
Defined.

Lemma evaluate_error_sources_witness :
  let failing : DataSource float (list string) :=
    {| source_iter := Ok tt;
       source_len := Ok 2%Z;
       source_batches := [Toy.b 2%float];
       source_next_error := Some (RuntimeError "worker exited") |} in
  evaluate_source (num := float) Toy.model failing 0%nat
  = Raise (RuntimeError "worker exited") /\
  evaluate_source_error_source (num := float) Toy.model failing 0%nat
                               (RuntimeError "worker exited").
Proof.
  intros failing.
  assert (Hrun : evaluate_source (num := float) Toy.model failing 0%nat
                 = Raise (RuntimeError "worker exited")) by reflexivity.
  split; [exact Hrun|].
  exact (proj1 (evaluate_error_sources (num := float) Toy.model failing 0%nat)
               (RuntimeError "worker exited") Hrun).
Defined.

(** ** The history of a run and the results of its steps *)

Section FitTrace.
Context {world inputs labels tensor num : Type}.
Context `{PyNum num} `{Torch world tensor num}.
Implicit Types (self : KModule world inputs labels tensor)
         (tl : list (inputs * labels))
         (vlo : option (list (inputs * labels)))
         (w : world).

Lemma epoch_results_lengths self tl vlo w rs w' :
  epoch_results (num := num) self tl vlo w = Ok (rs, w') ->
  List.length (fst rs) = List.length tl /\
  List.length (snd rs)
  = match vlo with Some vl => List.length vl | None => 0 end.
Proof.
  unfold epoch_results. intros Hrun. invert_runs.
  injection Hrun as <- _. cbn [fst snd].
  match goal with
  | Hx : step_results (train_step self) tl _ = Ok _ |- _ =>
      apply step_results_length in Hx; rewrite Hx
  end.
  split; [reflexivity|].
  destruct vlo as [vl|].
  - invert_runs.
    match goal with
    | Hx : step_results _ vl _ = Ok _ |- _ =>
        now apply step_results_length in Hx
    end.
  - match goal with
    | Hx : ret _ _ = Ok _ |- _ => now injection Hx as <- _
    end.
Qed.

Lemma fit_results_lengths self tl vlo (n : nat) : forall w trace w',
  fit_results (num := num) self tl vlo n w = Ok (trace, w') ->
  List.length trace = n /\
  Forall (fun rs =>
            List.length (fst rs) = List.length tl /\
            List.length (snd rs)
            = match vlo with Some vl => List.length vl | None => 0 end)
         trace.
Proof.
  induction n as [|n IH]; intros w trace w' Hrun; simpl in Hrun.
  - injection Hrun as <- _. split; [reflexivity | constructor].
  - invert_runs. injection Hrun as <- _.
    match goal with
    | Hx : fit_results self tl vlo n _ = Ok _ |- _ =>
        destruct (IH _ _ _ Hx) as [Hlen Hall]
    end.
    match goal with
    | Hx : epoch_results self tl vlo _ = Ok _ |- _ =>
        apply epoch_results_lengths in Hx
    end.
    split; [simpl; now rewrite Hlen | now constructor].
Qed.

(** X17. [fit] is its steps followed by its bookkeeping.  It runs, epoch
    after epoch, the training step on every batch of the training source
    and then the validation step on every batch of the validation source,
    in the order of the batches and each step from the state that the step
    before left, and it raises what that run raises.  When the run
    returns, with one result per batch of each source in each of the
    epochs, [fit] returns the history made of these results: one mapping
    per epoch, logged without prefix in the order of the epochs, that
    holds key by key the mean of the batch history of the epoch (its
    training results logged as they are, then its validation results
    logged under ["Val_"]); so the series of a key holds the means of the
    epochs whose batch history has the key. *)
Theorem fit_history_of_means self tl vlo epochs w :
  fit self tl epochs vlo w
  = bind (fit_results self tl vlo (Z.to_nat epochs))
         (fun trace => ret (history_of_results trace)) w /\
  forall trace w',
    fit_results (num := num) self tl vlo (Z.to_nat epochs) w
    = Ok (trace, w') ->
    fit self tl epochs vlo w = Ok (history_of_results trace, w') /\
    List.length trace = Z.to_nat epochs /\
    Forall (fun rs =>
              List.length (fst rs) = List.length tl /\
              List.length (snd rs)
              = match vlo with Some vl => List.length vl | None => 0 end)
           trace /\
    forall key,
      series key (history_of_results trace)
      = flat_map (epoch_sample key) trace.
Proof.
  split; [apply fit_as_results|].
  intros trace w' Hrun.
  split.
  - rewrite fit_as_results. unfold bind. now rewrite Hrun.
  - destruct (fit_results_lengths self tl vlo _ _ _ _ Hrun) as [Hlen Hall].
    split; [exact Hlen|]. split; [exact Hall|].
    intros key. apply series_history_of_results.
Qed.
End FitTrace.

Lemma fit_history_of_means_witness :
  let tl := [Toy.b 1%float; Toy.b_acc 3%float] in
  let trace : list (list (dict float) * list (dict float)) :=
    [([[("Loss"%string, 1%float)];
       [("Accuracy"%string, 1%float); ("Loss"%string, 3%float)]], []);
     ([[("Loss"%string, 1%float)];
       [("Accuracy"%string, 1%float); ("Loss"%string, 3%float)]], [])] in
  fit_results Toy.model tl None (Z.to_nat 2) 0%nat = Ok (trace, 4%nat) /\
  fit Toy.model tl 2 None 0%nat
  = Ok ([("Loss"%string, [2%float; 2%float]);
         ("Accuracy"%string, [1%float; 1%float])], 4%nat).
Proof.
  intros tl trace.
  assert (Hrun : fit_results Toy.model tl None (Z.to_nat 2) 0%nat
                 = Ok (trace, 4%nat)) by reflexivity.
  split; [exact Hrun|].
  exact (proj1 (proj2 (@fit_history_of_means _ _ _ _ float _ _
                         Toy.model tl None 2 0%nat)
                      trace 4%nat Hrun)).
Defined.
